(** * MigrationsHandler (src/handlers/migrationsHandler.js)

    A shallow embedding of the handler class of serverless-sequelize-migrations
    and of the part of the umzug / sequelize collaborators it drives.

    The handler is asynchronous, effectful JavaScript: it threads one database
    connection, one ledger (umzug's storage) and two output channels through
    every call, and promises either resolve or reject.  We model this with a
    state-and-exception monad [Async]: a computation maps a [State] to an
    [Outcome] (the resolved value, or the rejection) and the state reached.
    Effects performed before a rejection are kept, as in the source. *)

From Stdlib Require Import List String ZArith Lia Bool DecimalString.
Import ListNotations.
Open Scope string_scope.

(** ** Observable state *)

(** What the handler does to the outside world, in chronological order. *)
Inductive Event : Type :=
| CliLog (line : string)      (* this.serverless.cli.log(line) *)
| ConsoleLog (line : string)  (* console.log(line) *)
| RunUp (file : string)       (* the up() of a migration unit was invoked *)
| RunDown (file : string).    (* the down() of a migration unit was invoked *)

Record State : Type := mkState {
  ledger : list string;   (* umzug storage: executed names, as executed() lists them *)
  trace : list Event;     (* everything done so far, oldest first *)
  connected : bool        (* this.sequelize is open *)
}.

(** The object umzug hands back for a migration; the handler only reads
    its [file] field. *)
Record Migration : Type := mkMigration { file : string }.

(** The migration directory and the behaviour of its units.  Whether an
    operation resolves may depend on the whole state it is started in. *)
Record Env : Type := mkEnv {
  files : list string;                          (* units, in definition order *)
  up_resolves : string -> State -> bool;        (* does unit.up() resolve? *)
  down_resolves : string -> State -> bool;      (* does unit.down() resolve? *)
  logMigration_resolves : string -> State -> bool;   (* storage.logMigration *)
  unlogMigration_resolves : string -> State -> bool  (* storage.unlogMigration *)
}.

Inductive Error : Type :=
| JsError (message : string)         (* throw new Error(message) in the handler *)
| UpRejected (file : string)         (* a unit's up() rejected *)
| DownRejected (file : string)       (* a unit's down() rejected *)
| LogRejected (file : string)        (* the ledger append rejected *)
| UnlogRejected (file : string)      (* the ledger removal rejected *)
| MigrationNotFound (needle : string). (* umzug: Unable to find migration *)

Inductive Outcome (A : Type) : Type :=
| Returned (a : A)
| Threw (e : Error).
Arguments Returned {A} a.
Arguments Threw {A} e.

(** ** The monad of awaited computations *)

Definition Async (A : Type) : Type := State -> Outcome A * State.

Definition ret {A} (a : A) : Async A := fun s => (Returned a, s).

Definition throw {A} (e : Error) : Async A := fun s => (Threw e, s).

Definition bind {A B} (m : Async A) (k : A -> Async B) : Async B :=
  fun s =>
    match m s with
    | (Returned a, s') => k a s'
    | (Threw e, s') => (Threw e, s')
    end.

(** [promise.catch(handler)]: the handler runs in the state the rejection
    left behind; a rejection of the handler itself propagates. *)
Definition catch {A} (m : Async A) (handler : Error -> Async A) : Async A :=
  fun s =>
    match m s with
    | (Returned a, s') => (Returned a, s')
    | (Threw e, s') => handler e s'
    end.

Notation "x <- m ;; k" := (bind m (fun x => k))
  (at level 61, m at next level, right associativity).
Notation "m ;; k" := (bind m (fun _ => k))
  (at level 61, right associativity).

Definition emit (ev : Event) : Async unit :=
  fun s => (Returned tt, mkState (ledger s) (trace s ++ [ev]) (connected s)).

Definition cli_log (line : string) : Async unit := emit (CliLog line).
Definition console_log (line : string) : Async unit := emit (ConsoleLog line).

(** [array.forEach(f)] *)
Fixpoint forEach {A} (l : list A) (f : A -> Async unit) : Async unit :=
  match l with
  | [] => ret tt
  | x :: rest => f x ;; forEach rest f
  end.

(** [this.sequelize.close()] *)
Definition sequelize_close : Async unit :=
  fun s => (Returned tt, mkState (ledger s) (trace s) false).

(** ** JavaScript values *)

(** [array.indexOf(x) !== -1] *)
Definition includes (x : string) (l : list string) : bool :=
  existsb (String.eqb x) l.

(** Number-to-string conversion of an integer inside a template literal:
    plain decimal digits, as JavaScript prints integers below 1e21. *)
Definition nat_str (n : nat) : string := NilEmpty.string_of_uint (Nat.to_uint n).
Definition Z_str (z : Z) : string := NilEmpty.string_of_int (Z.to_int z).

(** [pendingMigrations[i]] inside a template literal: an index outside the
    array reads [undefined]. *)
Definition index_str (l : list string) (i : nat) : string :=
  match nth_error l i with
  | Some x => x
  | None => "undefined"
  end.

(** Truthiness of the [name] argument ([null] by default, otherwise a
    string): [null] and the empty string are falsy. *)
Definition truthy (name : option string) : bool :=
  match name with
  | Some n => negb (n =? "")
  | None => false
  end.

(** The [name] argument as a string. *)
Definition name_str (name : option string) : string :=
  match name with
  | Some n => n
  | None => "null"
  end.

(** ** The umzug collaborator

    umzug is an npm dependency, not part of this repository.  The model
    follows its documented contract for the calls the handler makes:
    [executed()] lists the ledger, [pending()] lists the unit files the
    ledger lacks, in definition order, [up()] runs the pending units one
    after the other, each followed by its ledger append, and stops at the
    first rejection; [down({migrations})] reverts the named units in the order
    given, [down()] the most recent ledger entry, [down({to: 0})] every ledger
    entry, most recent first.  Three idealisations: the ledger reads
    ([executed()], [pending()]) always answer, as on an open connection; a
    newly logged name is listed last by [executed()]; and a requested name is
    resolved by its full file name. *)
Module Umzug.

Definition executed : Async (list Migration) :=
  fun s => (Returned (map mkMigration (ledger s)), s).

Definition pending_files (e : Env) (s : State) : list string :=
  filter (fun f => negb (includes f (ledger s))) (files e).

Definition pending (e : Env) : Async (list Migration) :=
  fun s => (Returned (map mkMigration (pending_files e s)), s).

(** One unit's up(): the call is recorded whether or not it resolves. *)
Definition run_up (e : Env) (f : string) : Async unit :=
  fun s =>
    let s' := mkState (ledger s) (trace s ++ [RunUp f]) (connected s) in
    if up_resolves e f s then (Returned tt, s') else (Threw (UpRejected f), s').

Definition logMigration (e : Env) (f : string) : Async unit :=
  fun s =>
    if logMigration_resolves e f s
    then (Returned tt, mkState (ledger s ++ [f]) (trace s) (connected s))
    else (Threw (LogRejected f), s).

Definition run_down (e : Env) (f : string) : Async unit :=
  fun s =>
    let s' := mkState (ledger s) (trace s ++ [RunDown f]) (connected s) in
    if down_resolves e f s then (Returned tt, s') else (Threw (DownRejected f), s').

Definition unlogMigration (e : Env) (f : string) : Async unit :=
  fun s =>
    if unlogMigration_resolves e f s
    then (Returned tt,
          mkState (filter (fun g => negb (g =? f)) (ledger s)) (trace s) (connected s))
    else (Threw (UnlogRejected f), s).

Fixpoint execute_up (e : Env) (ms : list string) : Async (list Migration) :=
  match ms with
  | [] => ret []
  | f :: rest =>
      run_up e f ;;
      logMigration e f ;;
      done <- execute_up e rest ;;
      ret (mkMigration f :: done)
  end.

Fixpoint execute_down (e : Env) (ms : list string) : Async (list Migration) :=
  match ms with
  | [] => ret []
  | f :: rest =>
      run_down e f ;;
      unlogMigration e f ;;
      done <- execute_down e rest ;;
      ret (mkMigration f :: done)
  end.

(** Every requested name is resolved to a unit file before anything runs. *)
Fixpoint find_all (e : Env) (ms : list string) : Async unit :=
  match ms with
  | [] => ret tt
  | f :: rest =>
      if includes f (files e) then find_all e rest
      else throw (MigrationNotFound f)
  end.

Definition up (e : Env) : Async (list Migration) :=
  p <- pending e ;;
  execute_up e (map file p).

(** [umzug.down({ migrations: ms })] *)
Definition down_migrations (e : Env) (ms : list string) : Async (list Migration) :=
  find_all e ms ;;
  execute_down e ms.

(** [umzug.down()] *)
Definition down_last (e : Env) : Async (list Migration) :=
  x <- executed ;;
  match rev (map file x) with
  | [] => ret []
  | f :: _ => down_migrations e [f]
  end.

(** [umzug.down({ to: 0 })] *)
Definition down_to_0 (e : Env) : Async (list Migration) :=
  x <- executed ;;
  down_migrations e (rev (map file x)).

End Umzug.

(** ** The handler *)

(** What migrate's failure branch works out: [executedFromPending] and the
    name it prints after "Something wrong with". *)
Record FailureReport : Type := mkReport {
  committedBeforeFailure : list string;
  firstBrokenName : string
}.

(** [pendingMigrations.filter(pending => executedMigrations.indexOf(pending) !== -1)] *)
Definition executedFromPending (pendingMigrations executedMigrations : list string)
  : list string :=
  filter (fun pending => includes pending executedMigrations) pendingMigrations.

(** The [.catch] handler of [migrate].  It returns the values of its locals
    so that properties of them can be stated; [migrate] drops them. *)
Definition diagnose (e : Env) (revertError : bool) (pendingMigrations : list string)
  : Async FailureReport :=
  cli_log "Error while applying migrations" ;;
  cli_log "Looking for migration that has problems..." ;;
  executed <- Umzug.executed ;;
  let executedMigrations := map file executed in
  let fromPending := executedFromPending pendingMigrations executedMigrations in
  if (0 <? List.length fromPending)%nat then
    let broken := index_str pendingMigrations (List.length fromPending) in
    cli_log ("Something wrong with " ++ broken) ;;
    (if revertError then
       cli_log "Reverting applied migrations..." ;;
       revertedMigrations <- Umzug.down_migrations e fromPending ;;
       forEach revertedMigrations
         (fun migration => console_log ("=> reverted " ++ file migration))
     else ret tt) ;;
    ret (mkReport fromPending broken)
  else
    let broken := index_str pendingMigrations 0 in
    cli_log ("Something wrong with " ++ broken) ;;
    ret (mkReport fromPending broken).

(** [migrate(revertError)], with the failure report next to [success]. *)
Definition migrate_run (e : Env) (revertError : bool)
  : Async (bool * option FailureReport) :=
  cli_log "Looking for pending migrations..." ;;
  pending <- Umzug.pending e ;;
  let pendingMigrations := map file pending in
  result <-
    (if (0 <? List.length pendingMigrations)%nat then
       cli_log "Applying pending migrations..." ;;
       catch
         (appliedMigrations <- Umzug.up e ;;
          cli_log (nat_str (List.length appliedMigrations) ++ " applied migrations") ;;
          forEach appliedMigrations
            (fun migration => console_log ("=> " ++ file migration)) ;;
          ret (true, None))
         (fun _ =>
            report <- diagnose e revertError pendingMigrations ;;
            ret (false, Some report))
     else
       cli_log "No pending migrations to apply" ;;
       ret (true, None)) ;;
  sequelize_close ;;
  ret result.

Definition migrate (e : Env) (revertError : bool) : Async bool :=
  result <- migrate_run e revertError ;;
  ret (fst result).

(** The [.then] handler shared by revert and reset. *)
Definition report_reverted (migrations : list Migration) : Async unit :=
  cli_log (nat_str (List.length migrations) ++ " reverted migrations") ;;
  forEach migrations (fun migration => console_log ("=> " ++ file migration)).

(** [revert(times, name)].  [times] is a JavaScript number, taken here to be
    an integer. *)
Definition revert (e : Env) (times : Z) (name : option string) : Async unit :=
  if (times <? 1)%Z && negb (truthy name)
  then throw (JsError "--times must be greater than 0")
  else
    (if truthy name then
       cli_log ("Trying to revert migration " ++ name_str name) ;;
       migrations <- Umzug.down_migrations e [name_str name] ;;
       report_reverted migrations
     else if negb (truthy name) && (1 <? times)%Z then
       cli_log ("Trying to revert the last " ++ Z_str times ++ " migrations") ;;
       executed <- Umzug.executed ;;
       let executedMigrations := map file executed in
       let rollbackMigrations := firstn (Z.to_nat times) (rev executedMigrations) in
       if (0 <? List.length rollbackMigrations)%nat then
         migrations <- Umzug.down_migrations e rollbackMigrations ;;
         report_reverted migrations
       else
         cli_log "There isn't migrations to revert"
     else if negb (truthy name) && (times =? 1)%Z then
       cli_log "Trying to revert the last migration" ;;
       migrations <- Umzug.down_last e ;;
       report_reverted migrations
     else ret tt) ;;
    sequelize_close.

(** [reset()] *)
Definition reset (e : Env) : Async unit :=
  cli_log "Trying to revert all migrations..." ;;
  migrations <- Umzug.down_to_0 e ;;
  report_reverted migrations ;;
  sequelize_close.

(** [list(status)] *)
Definition list_ (e : Env) (status : string) : Async unit :=
  cli_log ("Searching for " ++ status ++ " migrations...") ;;
  (if status =? "executed" then
     migrations <- Umzug.executed ;;
     cli_log (nat_str (List.length migrations) ++ " executed migrations") ;;
     forEach migrations (fun migration => console_log ("=> " ++ file migration))
   else
     migrations <- Umzug.pending e ;;
     cli_log (nat_str (List.length migrations) ++ " pending migrations") ;;
     forEach migrations (fun migration => console_log ("=> " ++ file migration))) ;;
  sequelize_close.

(** ** Reading a trace *)

Fixpoint ups_of (t : list Event) : list string :=
  match t with
  | [] => []
  | RunUp f :: rest => f :: ups_of rest
  | _ :: rest => ups_of rest
  end.

Fixpoint downs_of (t : list Event) : list string :=
  match t with
  | [] => []
  | RunDown f :: rest => f :: downs_of rest
  | _ :: rest => downs_of rest
  end.

(** ** Concrete worlds used in examples *)

(** Units whose operations all resolve, except the up() of [bad_up] and the
    down() of [bad_down]. *)
Definition env_of (fs bad_up bad_down : list string) : Env :=
  mkEnv fs
    (fun f _ => negb (includes f bad_up))
    (fun f _ => negb (includes f bad_down))
    (fun _ _ => true)
    (fun _ _ => true).

Definition abc : list string := ["001_a"; "002_b"; "003_c"].

Definition fresh (applied : list string) : State := mkState applied [] true.

(** The state in which [migrate] starts [umzug.up()], and the one in which
    its [.catch] handler starts when that call rejects. *)
Definition applying (s : State) : State :=
  mkState (ledger s)
    (trace s ++ [CliLog "Looking for pending migrations...";
                 CliLog "Applying pending migrations..."])
    (connected s).

Definition failure_state (e : Env) (s : State) : State :=
  snd (Umzug.up e (applying s)).

(** What revert and reset make of the result of a [umzug.down] call: the
    [.then] handler prints the reverted units and the connection is closed; a
    rejection is not handled. *)
Definition reverted_then_closed (r : Outcome (list Migration) * State)
  : Outcome unit * State :=
  match r with
  | (Returned l, s1) =>
      (Returned tt,
       mkState (ledger s1)
         (trace s1 ++ CliLog (nat_str (List.length l) ++ " reverted migrations")
                   :: map (fun m => ConsoleLog ("=> " ++ file m)) l)
         false)
  | (Threw err, s1) => (Threw err, s1)
  end.

(** An operation closes the connection when it returns and leaves it as it
    was when it throws. *)
Definition closes_unless_thrown {A} (m : Async A) : Prop :=
  forall s,
    match fst (m s) with
    | Returned _ => connected (snd (m s)) = false
    | Threw _ => connected (snd (m s)) = connected s
    end.

(** ** Lists and traces *)

Lemma includes_In (x : string) (l : list string) :
  includes x l = true <-> In x l.
Proof.
  unfold includes. rewrite existsb_exists. split.
  - intros [y [Hy E]]. apply String.eqb_eq in E. now subst.
  - intros H. exists x. split; [assumption | apply String.eqb_refl].
Qed.

Lemma includes_false (x : string) (l : list string) :
  includes x l = false <-> ~ In x l.
Proof.
  rewrite <- includes_In. destruct (includes x l); split; intros; congruence.
Qed.

Lemma ups_of_app (t u : list Event) : ups_of (t ++ u) = (ups_of t ++ ups_of u)%list.
Proof.
  induction t as [|ev t IH]; simpl; [reflexivity|].
  destruct ev; simpl; rewrite IH; reflexivity.
Qed.

Lemma downs_of_app (t u : list Event) :
  downs_of (t ++ u) = (downs_of t ++ downs_of u)%list.
Proof.
  induction t as [|ev t IH]; simpl; [reflexivity|].
  destruct ev; simpl; rewrite IH; reflexivity.
Qed.

Lemma downs_of_RunDown (l : list string) : downs_of (map RunDown l) = l.
Proof. induction l; simpl; congruence. Qed.

Lemma downs_of_RunUp (l : list string) : downs_of (map RunUp l) = [].
Proof. induction l; simpl; congruence. Qed.

Lemma ups_of_RunUp (l : list string) : ups_of (map RunUp l) = l.
Proof. induction l; simpl; congruence. Qed.

Lemma ups_of_RunDown (l : list string) : ups_of (map RunDown l) = [].
Proof. induction l; simpl; congruence. Qed.

Lemma downs_of_console {A} (g : A -> string) (l : list A) :
  downs_of (map (fun x => ConsoleLog (g x)) l) = [].
Proof. induction l; simpl; congruence. Qed.

Lemma ups_of_console {A} (g : A -> string) (l : list A) :
  ups_of (map (fun x => ConsoleLog (g x)) l) = [].
Proof. induction l; simpl; congruence. Qed.

Lemma map_file_mkMigration (l : list string) : map file (map mkMigration l) = l.
Proof. induction l; simpl; congruence. Qed.

(** Removing the members of [done] one after the other is one filter. *)
Lemma filter_remove_cons (f : string) (done l : list string) :
  filter (fun g => negb (includes g done)) (filter (fun g => negb (g =? f)) l)
  = filter (fun g => negb (includes g (f :: done))) l.
Proof.
  induction l as [|x l IH]; simpl; [reflexivity|].
  destruct (x =? f); simpl; rewrite IH; reflexivity.
Qed.

Lemma filter_remove_nil (l : list string) :
  filter (fun g => negb (includes g [])) l = l.
Proof.
  induction l as [|x l IHl]; [reflexivity|].
  change (x :: filter (fun g => negb (includes g [])) l = x :: l). now rewrite IHl.
Qed.

(** ** Running the loops *)

Lemma forEach_console {A} (g : A -> string) (l : list A) (s : State) :
  forEach l (fun x => console_log (g x)) s
  = (Returned tt,
     mkState (ledger s) (trace s ++ map (fun x => ConsoleLog (g x)) l) (connected s)).
Proof.
  revert s. induction l as [|x l IH]; intros s; simpl.
  - unfold ret. rewrite app_nil_r. now destruct s.
  - unfold bind, console_log, emit. rewrite IH. simpl.
    now rewrite <- app_assoc.
Qed.

Lemma execute_up_cons (e : Env) (f : string) (ms : list string) (s : State) :
  Umzug.execute_up e (f :: ms) s =
  let s1 := mkState (ledger s) (trace s ++ [RunUp f]) (connected s) in
  if up_resolves e f s then
    if logMigration_resolves e f s1 then
      match Umzug.execute_up e ms
              (mkState (ledger s ++ [f]) (trace s ++ [RunUp f]) (connected s)) with
      | (Returned l, s3) => (Returned (mkMigration f :: l), s3)
      | (Threw err, s3) => (Threw err, s3)
      end
    else (Threw (LogRejected f), s1)
  else (Threw (UpRejected f), s1).
Proof.
  simpl. unfold bind, Umzug.run_up, Umzug.logMigration, ret.
  destruct (up_resolves e f s); [|reflexivity]. cbn [ledger trace connected].
  destruct (logMigration_resolves e f _); [|reflexivity].
  destruct (Umzug.execute_up e ms _) as [[l|err] s3]; reflexivity.
Qed.

Lemma execute_down_cons (e : Env) (f : string) (ms : list string) (s : State) :
  Umzug.execute_down e (f :: ms) s =
  let s1 := mkState (ledger s) (trace s ++ [RunDown f]) (connected s) in
  if down_resolves e f s then
    if unlogMigration_resolves e f s1 then
      match Umzug.execute_down e ms
              (mkState (filter (fun g => negb (g =? f)) (ledger s))
                 (trace s ++ [RunDown f]) (connected s)) with
      | (Returned l, s3) => (Returned (mkMigration f :: l), s3)
      | (Threw err, s3) => (Threw err, s3)
      end
    else (Threw (UnlogRejected f), s1)
  else (Threw (DownRejected f), s1).
Proof.
  simpl. unfold bind, Umzug.run_down, Umzug.unlogMigration, ret.
  destruct (down_resolves e f s); [|reflexivity]. cbn [ledger trace connected].
  destruct (unlogMigration_resolves e f _); [|reflexivity].
  destruct (Umzug.execute_down e ms _) as [[l|err] s3]; reflexivity.
Qed.

(** [execute_up] commits a prefix [done] of the units it is given, in order,
    and rejects at the unit after that prefix, if any. *)
Lemma execute_up_spec (e : Env) (ms : list string) (s : State) :
  exists done rest,
    ms = (done ++ rest)%list /\
    ledger (snd (Umzug.execute_up e ms s)) = (ledger s ++ done)%list /\
    connected (snd (Umzug.execute_up e ms s)) = connected s /\
    match fst (Umzug.execute_up e ms s) with
    | Returned l =>
        rest = [] /\ l = map mkMigration ms /\
        trace (snd (Umzug.execute_up e ms s)) = (trace s ++ map RunUp ms)%list
    | Threw err =>
        exists f rest',
          rest = f :: rest' /\ (err = UpRejected f \/ err = LogRejected f) /\
          trace (snd (Umzug.execute_up e ms s)) = (trace s ++ map RunUp (done ++ [f]))%list
    end.
Proof.
  revert s. induction ms as [|f ms IH]; intros s.
  - exists [], []. simpl. rewrite !app_nil_r. repeat split; reflexivity.
  - rewrite execute_up_cons. cbv zeta.
    destruct (up_resolves e f s) eqn:Hup.
    + destruct (logMigration_resolves e f _) eqn:Hlog.
      * match goal with |- context [Umzug.execute_up e ms ?s1] =>
          destruct (IH s1) as (done & rest & Hms & Hl & Hc & Hr);
          destruct (Umzug.execute_up e ms s1) as [[l|err] s2] eqn:E
        end; cbn [fst snd ledger trace connected] in *.
        -- destruct Hr as (-> & -> & Ht). exists (f :: done), [].
           rewrite Hl, Hc, Ht, Hms.
           rewrite <- !app_assoc. simpl. rewrite !app_nil_r.
           repeat split; reflexivity.
        -- destruct Hr as (g & rest' & -> & Herr & Ht). exists (f :: done), (g :: rest').
           rewrite Hl, Hc, Ht, Hms. rewrite <- !app_assoc. simpl.
           repeat split; try reflexivity. exists g, rest'. auto.
      * exists [], (f :: ms). cbn [fst snd ledger trace connected].
        rewrite app_nil_r. repeat split; try reflexivity. exists f, ms. auto.
    + exists [], (f :: ms). cbn [fst snd ledger trace connected].
      rewrite app_nil_r. repeat split; try reflexivity. exists f, ms. auto.
Qed.

(** [execute_down] reverts a prefix [done] of the units it is given, in the
    order given, and rejects at the unit after that prefix, if any. *)
Lemma execute_down_spec (e : Env) (ms : list string) (s : State) :
  exists done rest,
    ms = (done ++ rest)%list /\
    ledger (snd (Umzug.execute_down e ms s))
    = filter (fun g => negb (includes g done)) (ledger s) /\
    connected (snd (Umzug.execute_down e ms s)) = connected s /\
    match fst (Umzug.execute_down e ms s) with
    | Returned l =>
        rest = [] /\ l = map mkMigration ms /\
        trace (snd (Umzug.execute_down e ms s)) = (trace s ++ map RunDown ms)%list
    | Threw err =>
        exists f rest',
          rest = f :: rest' /\ (err = DownRejected f \/ err = UnlogRejected f) /\
          trace (snd (Umzug.execute_down e ms s))
          = (trace s ++ map RunDown (done ++ [f]))%list
    end.
Proof.
  revert s. induction ms as [|f ms IH]; intros s.
  - exists [], []. simpl. rewrite filter_remove_nil, !app_nil_r. repeat split; reflexivity.
  - rewrite execute_down_cons. cbv zeta.
    destruct (down_resolves e f s) eqn:Hdown.
    + destruct (unlogMigration_resolves e f _) eqn:Hun.
      * match goal with |- context [Umzug.execute_down e ms ?s1] =>
          destruct (IH s1) as (done & rest & Hms & Hl & Hc & Hr);
          destruct (Umzug.execute_down e ms s1) as [[l|err] s2] eqn:E
        end; cbn [fst snd ledger trace connected] in *.
        -- destruct Hr as (-> & -> & Ht). exists (f :: done), [].
           rewrite Hl, Hc, Ht, Hms, filter_remove_cons.
           rewrite <- !app_assoc. simpl. rewrite !app_nil_r.
           repeat split; reflexivity.
        -- destruct Hr as (g & rest' & -> & Herr & Ht). exists (f :: done), (g :: rest').
           rewrite Hl, Hc, Ht, Hms, filter_remove_cons.
           rewrite <- !app_assoc. simpl.
           repeat split; try reflexivity. exists g, rest'. auto.
      * exists [], (f :: ms). cbn [fst snd ledger trace connected].
        rewrite filter_remove_nil. repeat split; try reflexivity. exists f, ms. auto.
    + exists [], (f :: ms). cbn [fst snd ledger trace connected].
      rewrite filter_remove_nil. repeat split; try reflexivity. exists f, ms. auto.
Qed.

(** ** Unfolding the umzug calls *)

Lemma find_all_cases (e : Env) (ms : list string) (s : State) :
  Umzug.find_all e ms s = (Returned tt, s) \/
  exists f, In f ms /\ ~ In f (files e) /\
            Umzug.find_all e ms s = (Threw (MigrationNotFound f), s).
Proof.
  induction ms as [|f ms IH]; simpl; [now left|].
  destruct (includes f (files e)) eqn:Hf.
  - destruct IH as [IH | (g & Hg & Hn & IH)]; [now left|].
    right. exists g. auto.
  - right. exists f. apply includes_false in Hf. auto.
Qed.

Lemma find_all_found (e : Env) (ms : list string) (s : State) :
  (forall f, In f ms -> In f (files e)) ->
  Umzug.find_all e ms s = (Returned tt, s).
Proof.
  intros H. destruct (find_all_cases e ms s) as [E | (f & Hf & Hn & _)];
    [assumption | now apply H in Hf].
Qed.

Lemma down_migrations_found (e : Env) (ms : list string) (s : State) :
  (forall f, In f ms -> In f (files e)) ->
  Umzug.down_migrations e ms s = Umzug.execute_down e ms s.
Proof.
  intros H. unfold Umzug.down_migrations, bind. now rewrite find_all_found.
Qed.

Lemma up_unfold (e : Env) (s : State) :
  Umzug.up e s = Umzug.execute_up e (Umzug.pending_files e s) s.
Proof.
  unfold Umzug.up, bind, Umzug.pending. now rewrite map_file_mkMigration.
Qed.

Lemma pending_files_In (e : Env) (s : State) (f : string) :
  In f (Umzug.pending_files e s) <-> In f (files e) /\ ~ In f (ledger s).
Proof.
  unfold Umzug.pending_files. rewrite filter_In, negb_true_iff, includes_false.
  reflexivity.
Qed.

Lemma executedFromPending_In (pendingMigrations executedMigrations : list string)
      (f : string) :
  In f (executedFromPending pendingMigrations executedMigrations)
  <-> In f pendingMigrations /\ In f executedMigrations.
Proof.
  unfold executedFromPending. rewrite filter_In, includes_In. reflexivity.
Qed.

(** ** Unfolding the handler *)

Lemma diagnose_report_only (e : Env) (pendingMigrations : list string) (s1 : State) :
  let fromPending := executedFromPending pendingMigrations (ledger s1) in
  let broken := index_str pendingMigrations (List.length fromPending) in
  diagnose e false pendingMigrations s1 =
  (Returned (mkReport fromPending broken),
   mkState (ledger s1)
     (trace s1 ++ [CliLog "Error while applying migrations";
                   CliLog "Looking for migration that has problems...";
                   CliLog ("Something wrong with " ++ broken)])
     (connected s1)).
Proof.
  cbv zeta. unfold diagnose, bind, cli_log, emit, Umzug.executed, ret.
  cbn [fst snd ledger trace connected]. rewrite map_file_mkMigration.
  destruct (executedFromPending pendingMigrations (ledger s1)) as [|c cs];
    cbn [List.length Nat.ltb Nat.leb ledger trace connected];
    rewrite <- !app_assoc; reflexivity.
Qed.

Lemma diagnose_nothing_committed (e : Env) (revertError : bool)
      (pendingMigrations : list string) (s1 : State) :
  executedFromPending pendingMigrations (ledger s1) = [] ->
  diagnose e revertError pendingMigrations s1 =
  diagnose e false pendingMigrations s1.
Proof.
  intros H. unfold diagnose, bind, cli_log, emit, Umzug.executed, ret.
  cbn [fst snd ledger trace connected]. rewrite map_file_mkMigration, H.
  reflexivity.
Qed.

Lemma diagnose_auto_revert (e : Env) (pendingMigrations : list string) (s1 : State) :
  let fromPending := executedFromPending pendingMigrations (ledger s1) in
  let broken := index_str pendingMigrations (List.length fromPending) in
  fromPending <> [] ->
  diagnose e true pendingMigrations s1 =
  match Umzug.down_migrations e fromPending
          (mkState (ledger s1)
             (trace s1 ++ [CliLog "Error while applying migrations";
                           CliLog "Looking for migration that has problems...";
                           CliLog ("Something wrong with " ++ broken);
                           CliLog "Reverting applied migrations..."])
             (connected s1)) with
  | (Returned l, s3) =>
      (Returned (mkReport fromPending broken),
       mkState (ledger s3)
         (trace s3 ++ map (fun m => ConsoleLog ("=> reverted " ++ file m)) l)
         (connected s3))
  | (Threw err, s3) => (Threw err, s3)
  end.
Proof.
  cbv zeta. intros Hne.
  unfold diagnose, bind, cli_log, emit, Umzug.executed, ret.
  cbn [fst snd ledger trace connected]. rewrite map_file_mkMigration.
  destruct (executedFromPending pendingMigrations (ledger s1)) as [|c cs] eqn:E;
    [congruence|].
  cbn [List.length Nat.ltb Nat.leb ledger trace connected].
  rewrite <- !app_assoc. cbn [app].
  destruct (Umzug.down_migrations e (c :: cs) _) as [[l|err] s3]; [|reflexivity].
  rewrite forEach_console. reflexivity.
Qed.

Lemma migrate_run_no_pending (e : Env) (revertError : bool) (s : State) :
  Umzug.pending_files e s = [] ->
  migrate_run e revertError s =
  (Returned (true, None),
   mkState (ledger s)
     (trace s ++ [CliLog "Looking for pending migrations...";
                  CliLog "No pending migrations to apply"])
     false).
Proof.
  intros H. unfold migrate_run, bind, cli_log, emit, Umzug.pending, ret, sequelize_close.
  cbn [fst snd ledger trace connected]. rewrite map_file_mkMigration.
  change (Umzug.pending_files e _) with (Umzug.pending_files e s). rewrite H.
  cbn [List.length Nat.ltb Nat.leb ledger trace connected].
  rewrite <- !app_assoc. reflexivity.
Qed.

Lemma migrate_run_pending (e : Env) (revertError : bool) (s : State) :
  Umzug.pending_files e s <> [] ->
  migrate_run e revertError s =
  match Umzug.up e (applying s) with
  | (Returned l, s1) =>
      (Returned (true, None),
       mkState (ledger s1)
         (trace s1 ++ CliLog (nat_str (List.length l) ++ " applied migrations")
                   :: map (fun m => ConsoleLog ("=> " ++ file m)) l)
         false)
  | (Threw _, s1) =>
      match diagnose e revertError (Umzug.pending_files e s) s1 with
      | (Returned report, s2) =>
          (Returned (false, Some report), mkState (ledger s2) (trace s2) false)
      | (Threw err, s2) => (Threw err, s2)
      end
  end.
Proof.
  intros H. unfold migrate_run, bind, catch, cli_log, emit, Umzug.pending, ret,
    sequelize_close.
  cbn [fst snd ledger trace connected]. rewrite map_file_mkMigration.
  change (Umzug.pending_files e _) with (Umzug.pending_files e s).
  destruct (Umzug.pending_files e s) as [|p ps] eqn:E; [congruence|].
  cbn [List.length Nat.ltb Nat.leb ledger trace connected].
  rewrite <- !app_assoc. cbn [app]. unfold applying.
  destruct (Umzug.up e _) as [[l|err] s1].
  - rewrite forEach_console. cbn [fst snd ledger trace connected].
    rewrite <- !app_assoc. reflexivity.
  - destruct (diagnose e revertError (p :: ps) s1) as [[report|err'] s2]; reflexivity.
Qed.

Lemma migrate_run_fst_snd (e : Env) (revertError : bool) (s : State) :
  snd (migrate e revertError s) = snd (migrate_run e revertError s) /\
  fst (migrate e revertError s) =
  match fst (migrate_run e revertError s) with
  | Returned result => Returned (fst result)
  | Threw err => Threw err
  end.
Proof.
  unfold migrate, bind, ret.
  destruct (migrate_run e revertError s) as [[result|err] s']; auto.
Qed.

(** A run of [migrate] that does not return [true] is one whose
    [umzug.up()] rejected; its [.catch] handler then decides the outcome. *)
Lemma apply_rejected (e : Env) (revertError : bool) (s : State) :
  fst (migrate e revertError s) <> Returned true ->
  Umzug.pending_files e s <> [] /\
  (exists err, Umzug.up e (applying s) = (Threw err, failure_state e s)) /\
  migrate_run e revertError s =
  match diagnose e revertError (Umzug.pending_files e s) (failure_state e s) with
  | (Returned report, s2) =>
      (Returned (false, Some report), mkState (ledger s2) (trace s2) false)
  | (Threw err, s2) => (Threw err, s2)
  end.
Proof.
  intros Hfail. destruct (migrate_run_fst_snd e revertError s) as [_ Hfst].
  rewrite Hfst in Hfail. clear Hfst.
  destruct (Umzug.pending_files e s) as [|p ps] eqn:Hp.
  - rewrite (migrate_run_no_pending e revertError s Hp) in Hfail. now elim Hfail.
  - assert (Hne : Umzug.pending_files e s <> []) by (rewrite Hp; discriminate).
    rewrite (migrate_run_pending e revertError s Hne) in *.
    unfold failure_state.
    destruct (Umzug.up e (applying s)) as [[l|err] s1]; [now elim Hfail|].
    rewrite Hp. cbn [snd]. repeat split; [discriminate | now exists err].
Qed.

(** When [umzug.up()] rejects, the units it committed are a prefix of the
    pending ones and the rejecting unit is the next pending one. *)
Lemma failure_shape (e : Env) (s : State) (err : Error) :
  Umzug.up e (applying s) = (Threw err, failure_state e s) ->
  exists done f rest,
    Umzug.pending_files e s = (done ++ f :: rest)%list /\
    ledger (failure_state e s) = (ledger s ++ done)%list /\
    connected (failure_state e s) = connected s /\
    trace (failure_state e s) = (trace (applying s) ++ map RunUp (done ++ [f]))%list /\
    (err = UpRejected f \/ err = LogRejected f).
Proof.
  intros Hup. rewrite up_unfold in Hup.
  change (Umzug.pending_files e (applying s)) with (Umzug.pending_files e s) in Hup.
  destruct (execute_up_spec e (Umzug.pending_files e s) (applying s))
    as (done & rest & Hp & Hl & Hc & Hr).
  rewrite Hup in Hl, Hc, Hr. cbn [fst snd] in Hl, Hc, Hr.
  destruct Hr as (f & rest' & -> & Herr & Ht).
  exists done, f, rest'. auto.
Qed.

Lemma NoDup_app_disjoint (l1 l2 : list string) :
  NoDup (l1 ++ l2) -> forall x, In x l1 -> In x l2 -> False.
Proof.
  induction l1 as [|a l1 IH]; simpl; intros Hnd x H1 H2; [contradiction|].
  inversion Hnd as [|? ? Ha Hnd']; subst. destruct H1 as [->|H1].
  - apply Ha, in_or_app. now right.
  - exact (IH Hnd' x H1 H2).
Qed.

(** With unique unit names, the ledger-confirmed pending names are exactly
    that prefix. *)
Lemma committed_is_prefix (pendingNames applied done rest : list string) :
  NoDup pendingNames ->
  (forall f, In f pendingNames -> ~ In f applied) ->
  pendingNames = (done ++ rest)%list ->
  executedFromPending pendingNames (applied ++ done) = done.
Proof.
  intros Hnd Hnew ->. unfold executedFromPending. rewrite filter_app.
  assert (Hdone : filter (fun p => includes p (applied ++ done)) done = done).
  { apply forallb_filter_id, forallb_forall. intros x Hx.
    apply includes_In, in_or_app. now right. }
  assert (Hrest : filter (fun p => includes p (applied ++ done)) rest = []).
  { pose proof (NoDup_app_disjoint done rest Hnd) as Hdisj.
    assert (Hall : forall x, In x rest -> includes x (applied ++ done) = false).
    { intros x Hx. apply includes_false. intros Hin.
      apply in_app_or in Hin as [Hin|Hin].
      - apply (Hnew x); [apply in_or_app; now right | assumption].
      - exact (Hdisj x Hin Hx). }
    clear Hdone Hdisj Hnew Hnd. induction rest as [|x rest IH]; [reflexivity|].
    simpl. rewrite (Hall x) by now left. apply IH. intros y Hy. apply Hall. now right. }
  rewrite Hdone, Hrest. apply app_nil_r.
Qed.

Lemma pending_files_NoDup (e : Env) (s : State) :
  NoDup (files e) -> NoDup (Umzug.pending_files e s).
Proof. apply NoDup_filter. Qed.


Lemma index_after_prefix (done rest : list string) (f : string) :
  nth_error (done ++ f :: rest) (List.length done) = Some f.
Proof. induction done as [|d done IH]; simpl; [reflexivity | exact IH]. Qed.

(** The failure branch of [migrate], with unique unit names: the
    ledger-confirmed pending names are a prefix of the pending names, and
    the unit after that prefix is the one whose commit rejected. *)
Lemma failure_prefix (e : Env) (revertError : bool) (s : State) :
  NoDup (files e) ->
  fst (migrate e revertError s) <> Returned true ->
  let pendingNames := Umzug.pending_files e s in
  let committed := executedFromPending pendingNames (ledger (failure_state e s)) in
  exists f rest,
    pendingNames = (committed ++ f :: rest)%list /\
    ledger (failure_state e s) = (ledger s ++ committed)%list /\
    (Umzug.up e (applying s) = (Threw (UpRejected f), failure_state e s) \/
     Umzug.up e (applying s) = (Threw (LogRejected f), failure_state e s)).
Proof.
  intros Hnd Hfail. cbv zeta.
  destruct (apply_rejected e revertError s Hfail) as (_ & (err & Hup) & _).
  destruct (failure_shape e s err Hup) as (done & f & rest & Hp & Hl & _ & _ & Herr).
  assert (Hc : executedFromPending (Umzug.pending_files e s) (ledger (failure_state e s))
               = done).
  { rewrite Hl. apply committed_is_prefix with (rest := f :: rest).
    - now apply pending_files_NoDup.
    - intros x Hx. now apply pending_files_In in Hx.
    - exact Hp. }
  rewrite Hc. exists f, rest. repeat split; try assumption.
  destruct Herr as [-> | ->]; auto.
Qed.

(** ** Failing runs of migrate: diagnosis, auto-revert, error handling *)



(** C9. In the failure branch of migrate the index
    executedFromPending.length is strictly below pendingMigrations.length,
    so pendingMigrations[executedFromPending.length] is a pending name, and
    that unit is absent from the ledger re-queried after the failure.  Unit
    names are unique. *)
Theorem C9_broken_index_in_bounds (e : Env) (revertError : bool) (s : State) :
  NoDup (files e) ->
  fst (migrate e revertError s) <> Returned true ->
  let pendingMigrations := Umzug.pending_files e s in
  let fromPending :=
    executedFromPending pendingMigrations (ledger (failure_state e s)) in
  (List.length fromPending < List.length pendingMigrations)%nat /\
  exists name,
    nth_error pendingMigrations (List.length fromPending) = Some name /\
    ~ In name (ledger (failure_state e s)).
Proof.
  intros Hnd Hfail. cbv zeta.
  destruct (failure_prefix e revertError s Hnd Hfail) as (f & rest & Hp & Hl & _).
  cbv zeta in Hp, Hl.
  pose proof (pending_files_NoDup e s Hnd) as Hndp.
  remember (executedFromPending (Umzug.pending_files e s)
              (ledger (failure_state e s))) as fromPending eqn:Hfrom.
  clear Hfrom. split.
  - rewrite Hp, length_app. simpl. lia.
  - exists f. split.
    + rewrite Hp. apply index_after_prefix.
    + rewrite Hl. intros Hin. apply in_app_or in Hin as [Hin|Hin].
      * assert (Hf : In f (Umzug.pending_files e s)).
        { rewrite Hp. apply in_or_app. right. now left. }
        apply pending_files_In in Hf. now destruct Hf.
      * rewrite Hp in Hndp. apply NoDup_remove_2 in Hndp.
        apply Hndp, in_or_app. now left.
Qed.

(** C9, at a concrete run: the second of three pending units rejects. *)
Lemma C9_broken_index_in_bounds_witness :
  (List.length
     (executedFromPending (Umzug.pending_files (env_of abc ["002_b"] []) (fresh []))
        (ledger (failure_state (env_of abc ["002_b"] []) (fresh []))))
   < List.length (Umzug.pending_files (env_of abc ["002_b"] []) (fresh [])))%nat /\
  exists name,
    nth_error (Umzug.pending_files (env_of abc ["002_b"] []) (fresh []))
      (List.length
         (executedFromPending (Umzug.pending_files (env_of abc ["002_b"] []) (fresh []))
            (ledger (failure_state (env_of abc ["002_b"] []) (fresh [])))))
    = Some name /\
    ~ In name (ledger (failure_state (env_of abc ["002_b"] []) (fresh []))).
Proof.
  apply (C9_broken_index_in_bounds (env_of abc ["002_b"] []) true (fresh [])).
  - repeat constructor; simpl; intuition discriminate.
  - vm_compute. discriminate.
Defined.

Lemma filter_none (g : string -> bool) (l : list string) :
  (forall x, In x l -> g x = false) -> filter g l = [].
Proof.
  induction l as [|x l IH]; intros H; [reflexivity|].
  simpl. rewrite (H x) by now left. apply IH. intros y Hy. apply H. now right.
Qed.

(** Removing from the ledger every pending name it confirms gives back the
    ledger from before the run. *)
Lemma revert_committed_restores (pendingNames applied done : list string) :
  (forall x, In x done -> In x pendingNames) ->
  (forall x, In x pendingNames -> ~ In x applied) ->
  filter (fun g => negb (includes g (executedFromPending pendingNames (applied ++ done))))
    (applied ++ done)
  = applied.
Proof.
  intros Hdone Hnew. rewrite filter_app.
  rewrite forallb_filter_id, filter_none; [apply app_nil_r | |].
  - intros x Hx. apply negb_false_iff, includes_In, executedFromPending_In.
    split; [now apply Hdone | apply in_or_app; now right].
  - apply forallb_forall. intros x Hx.
    apply negb_true_iff, includes_false. intros Hin.
    apply executedFromPending_In in Hin as [Hin _]. exact (Hnew x Hin Hx).
Qed.

(** The two ways a failing run with auto-revert ends: every confirmed unit
    is reverted, in the order of [executedFromPending], and [false] is
    returned; or the down() or the ledger removal of a confirmed unit rejects
    and that rejection leaves [migrate]. *)
Lemma auto_revert_cases (e : Env) (s : State) :
  fst (migrate e true s) <> Returned true ->
  let pendingNames := Umzug.pending_files e s in
  let committed := executedFromPending pendingNames (ledger (failure_state e s)) in
  let broken := index_str pendingNames (List.length committed) in
  (exists s',
      migrate_run e true s = (Returned (false, Some (mkReport committed broken)), s') /\
      ledger s' = ledger s /\
      downs_of (trace s') = (downs_of (trace s) ++ committed)%list /\
      connected s' = false)
  \/
  (exists f s',
      In f committed /\
      (migrate_run e true s = (Threw (DownRejected f), s') \/
       migrate_run e true s = (Threw (UnlogRejected f), s')) /\
      connected s' = connected s).
Proof.
  intros Hfail. cbv zeta.
  destruct (apply_rejected e true s Hfail) as (_ & (err & Hup) & Hrun).
  destruct (failure_shape e s err Hup) as (done & f0 & rest & Hp & Hl & Hc & Ht & _).
  assert (Hdone : forall x, In x done -> In x (Umzug.pending_files e s)).
  { intros x Hx. rewrite Hp. apply in_or_app. now left. }
  assert (Hnew : forall x, In x (Umzug.pending_files e s) -> ~ In x (ledger s)).
  { intros x Hx. now apply pending_files_In in Hx. }
  pose proof (revert_committed_restores _ _ _ Hdone Hnew) as Hrestore.
  rewrite <- Hl in Hrestore.
  destruct (executedFromPending (Umzug.pending_files e s) (ledger (failure_state e s)))
    as [|c cs] eqn:Hcom.
  - (* nothing confirmed: nothing to revert *)
    left. rewrite Hrun.
    rewrite (diagnose_nothing_committed e true _ _ Hcom).
    pose proof (diagnose_report_only e (Umzug.pending_files e s) (failure_state e s)) as E.
    cbv zeta in E. rewrite Hcom in E. rewrite E. clear E.
    eexists. split; [reflexivity|]. cbn [ledger trace connected].
    rewrite filter_remove_nil in Hrestore. repeat split; [exact Hrestore|].
    rewrite Ht. unfold applying. cbn [trace].
    rewrite !downs_of_app, downs_of_RunUp. simpl. now rewrite !app_nil_r.
  - pose proof (diagnose_auto_revert e (Umzug.pending_files e s) (failure_state e s)) as E.
    cbv zeta in E. rewrite Hcom in E. rewrite Hrun, E by discriminate. clear E.
    rewrite down_migrations_found.
    2:{ intros x Hx. rewrite <- Hcom in Hx. apply executedFromPending_In in Hx as [Hx _].
        now apply pending_files_In in Hx. }
    match goal with |- context [Umzug.execute_down e ?ms ?s2] =>
      destruct (execute_down_spec e ms s2) as (done' & rest' & Hms & Hl' & Hc' & Hr);
      destruct (Umzug.execute_down e ms s2) as [[l|err'] s3]
    end; cbn [fst snd ledger trace connected] in *.
    + (* every confirmed unit reverted *)
      left. destruct Hr as (-> & _ & Ht'). rewrite app_nil_r in Hms. subst done'.
      eexists. split; [reflexivity|]. cbn [ledger trace connected].
      repeat split.
      * now rewrite Hl', Hrestore.
      * rewrite Ht', Ht. unfold applying. cbn [trace].
        rewrite !downs_of_app, downs_of_RunUp, downs_of_RunDown, downs_of_console.
        simpl. now rewrite !app_nil_r.
    + (* a confirmed unit's down() or ledger removal rejected *)
      right. destruct Hr as (f & rest'' & -> & Herr & _).
      exists f, s3. split; [rewrite Hms; apply in_or_app; right; now left|].
      split; [destruct Herr as [-> | ->]; auto | now rewrite Hc', Hc].
Qed.





(** [umzug.up()] rejecting is what makes a run of [migrate] fail. *)
Lemma up_rejected_fails (e : Env) (revertError : bool) (s : State) (err : Error) :
  fst (Umzug.up e (applying s)) = Threw err ->
  fst (migrate e revertError s) <> Returned true.
Proof.
  intros Hup. destruct (migrate_run_fst_snd e revertError s) as [_ ->].
  destruct (Umzug.pending_files e s) as [|p ps] eqn:Hp.
  - rewrite up_unfold in Hup.
    change (Umzug.pending_files e (applying s)) with (Umzug.pending_files e s) in Hup.
    rewrite Hp in Hup. discriminate.
  - rewrite migrate_run_pending by (rewrite Hp; discriminate).
    destruct (Umzug.up e (applying s)) as [[l|err'] s1]; [discriminate|].
    destruct (diagnose e revertError (Umzug.pending_files e s) s1) as [[report|err''] s2];
      discriminate.
Qed.




(** ** Unfolding revert, reset and list; the connection *)

Lemma report_reverted_run (l : list Migration) (s : State) :
  report_reverted l s =
  (Returned tt,
   mkState (ledger s)
     (trace s ++ CliLog (nat_str (List.length l) ++ " reverted migrations")
              :: map (fun m => ConsoleLog ("=> " ++ file m)) l)
     (connected s)).
Proof.
  unfold report_reverted, bind, cli_log, emit. rewrite forEach_console.
  cbn [ledger trace connected]. now rewrite <- app_assoc.
Qed.

Lemma reverted_closed (m : Async (list Migration)) (s : State) :
  ((migrations <- m ;; report_reverted migrations) ;; sequelize_close) s
  = reverted_then_closed (m s).
Proof.
  unfold bind, reverted_then_closed. destruct (m s) as [[l|err] s1]; [|reflexivity].
  rewrite report_reverted_run. reflexivity.
Qed.

(** [umzug.down({migrations})]: the connection is left as it is; when the
    call resolves, every named unit had its down() run, in the order given,
    and left the ledger; when it rejects, a named unit was not found or its
    down() or its ledger removal rejected. *)
Lemma down_migrations_spec (e : Env) (ms : list string) (s : State) :
  connected (snd (Umzug.down_migrations e ms s)) = connected s /\
  match fst (Umzug.down_migrations e ms s) with
  | Returned l =>
      l = map mkMigration ms /\
      trace (snd (Umzug.down_migrations e ms s)) = (trace s ++ map RunDown ms)%list /\
      ledger (snd (Umzug.down_migrations e ms s))
      = filter (fun g => negb (includes g ms)) (ledger s)
  | Threw err =>
      exists f, In f ms /\
                (err = MigrationNotFound f \/ err = DownRejected f \/ err = UnlogRejected f)
  end.
Proof.
  unfold Umzug.down_migrations, bind.
  destruct (find_all_cases e ms s) as [-> | (f & Hf & _ & ->)].
  - destruct (execute_down_spec e ms s) as (done & rest & Hms & Hl & Hc & Hr).
    split; [exact Hc|].
    destruct (Umzug.execute_down e ms s) as [[l|err] s1]; cbn [fst snd] in *.
    + destruct Hr as (-> & -> & Ht). rewrite app_nil_r in Hms. subst done. auto.
    + destruct Hr as (f & rest' & -> & Herr & _). exists f.
      split; [rewrite Hms; apply in_or_app; right; now left | tauto].
  - cbn [fst snd]. split; [reflexivity|]. exists f. auto.
Qed.

Lemma down_migrations_connected (e : Env) (ms : list string) (s : State) :
  connected (snd (Umzug.down_migrations e ms s)) = connected s.
Proof. apply down_migrations_spec. Qed.

Lemma revert_invalid (e : Env) (times : Z) (name : option string) (s : State) :
  (times < 1)%Z -> truthy name = false ->
  revert e times name s = (Threw (JsError "--times must be greater than 0"), s).
Proof.
  intros Ht Hn. unfold revert. rewrite Hn. apply Z.ltb_lt in Ht. now rewrite Ht.
Qed.

Lemma revert_by_name (e : Env) (times : Z) (name : option string) (s : State) :
  truthy name = true ->
  revert e times name s =
  reverted_then_closed
    (Umzug.down_migrations e [name_str name]
       (mkState (ledger s)
          (trace s ++ [CliLog ("Trying to revert migration " ++ name_str name)])
          (connected s))).
Proof.
  intros Hn. unfold revert. rewrite Hn, andb_false_r.
  rewrite <- reverted_closed. reflexivity.
Qed.

Lemma revert_by_count (e : Env) (times : Z) (name : option string) (s : State) :
  truthy name = false -> (1 < times)%Z ->
  let rollbackMigrations := firstn (Z.to_nat times) (rev (ledger s)) in
  let s0 := mkState (ledger s)
              (trace s ++ [CliLog ("Trying to revert the last " ++ Z_str times
                                   ++ " migrations")])
              (connected s) in
  revert e times name s =
  match rollbackMigrations with
  | [] =>
      (Returned tt,
       mkState (ledger s) (trace s0 ++ [CliLog "There isn't migrations to revert"]) false)
  | _ :: _ => reverted_then_closed (Umzug.down_migrations e rollbackMigrations s0)
  end.
Proof.
  intros Hn Ht. cbv zeta. unfold revert. rewrite Hn.
  assert (H1 : (times <? 1)%Z = false) by (apply Z.ltb_ge; lia).
  assert (H2 : (1 <? times)%Z = true) by (apply Z.ltb_lt; lia).
  rewrite H1, H2. cbn [andb negb].
  unfold bind at 1. unfold bind at 1. unfold cli_log at 1. unfold emit at 1.
  unfold bind at 1. unfold Umzug.executed at 1. cbn [ledger trace connected].
  rewrite map_file_mkMigration.
  destruct (firstn (Z.to_nat times) (rev (ledger s))) as [|r rs] eqn:Hr.
  - reflexivity.
  - cbn [List.length Nat.ltb Nat.leb]. unfold bind, reverted_then_closed.
    destruct (Umzug.down_migrations e (r :: rs) _) as [[l|err] s1]; [|reflexivity].
    rewrite report_reverted_run. reflexivity.
Qed.

Lemma revert_last (e : Env) (name : option string) (s : State) :
  truthy name = false ->
  revert e 1 name s =
  reverted_then_closed
    (Umzug.down_last e
       (mkState (ledger s) (trace s ++ [CliLog "Trying to revert the last migration"])
          (connected s))).
Proof.
  intros Hn. unfold revert. rewrite Hn. cbn [Z.ltb Z.eqb Z.compare Pos.compare andb negb].
  rewrite <- reverted_closed. reflexivity.
Qed.

Lemma reset_unfold (e : Env) (s : State) :
  reset e s =
  reverted_then_closed
    (Umzug.down_to_0 e
       (mkState (ledger s) (trace s ++ [CliLog "Trying to revert all migrations..."])
          (connected s))).
Proof.
  unfold reset, bind, cli_log, emit, reverted_then_closed.
  cbn [ledger trace connected].
  destruct (Umzug.down_to_0 e _) as [[l|err] s1]; [|reflexivity].
  rewrite report_reverted_run. reflexivity.
Qed.

Lemma down_to_0_unfold (e : Env) (s : State) :
  Umzug.down_to_0 e s = Umzug.down_migrations e (rev (ledger s)) s.
Proof.
  unfold Umzug.down_to_0, bind, Umzug.executed. now rewrite map_file_mkMigration.
Qed.

Lemma down_last_unfold (e : Env) (s : State) :
  Umzug.down_last e s =
  match rev (ledger s) with
  | [] => (Returned [], s)
  | f :: _ => Umzug.down_migrations e [f] s
  end.
Proof.
  unfold Umzug.down_last, bind, Umzug.executed. rewrite map_file_mkMigration.
  destruct (rev (ledger s)); reflexivity.
Qed.

Lemma reverted_then_closed_connected (r : Outcome (list Migration) * State) (s : State) :
  connected (snd r) = connected s ->
  match fst (reverted_then_closed r) with
  | Returned _ => connected (snd (reverted_then_closed r)) = false
  | Threw _ => connected (snd (reverted_then_closed r)) = connected s
  end.
Proof. destruct r as [[l|err] s1]; simpl; auto. Qed.

Lemma list_run (e : Env) (status : string) (s : State) :
  fst (list_ e status s) = Returned tt /\ connected (snd (list_ e status s)) = false /\
  ledger (snd (list_ e status s)) = ledger s.
Proof.
  unfold list_, bind, cli_log, emit, Umzug.executed, Umzug.pending, sequelize_close.
  cbn [ledger trace connected].
  destruct (status =? "executed"); rewrite forEach_console; auto.
Qed.

(** C4 (amended). Each public operation (migrate, revert, reset, list)
    closes the connection on every path on which it returns; on a path on
    which it throws, the connection is left as it was. *)
Theorem C4_closed_when_returning (e : Env) :
  (forall revertError, closes_unless_thrown (migrate e revertError)) /\
  (forall times name, closes_unless_thrown (revert e times name)) /\
  closes_unless_thrown (reset e) /\
  (forall status, closes_unless_thrown (list_ e status)).
Proof.
  unfold closes_unless_thrown. repeat split.
  - (* migrate *)
    intros revertError s.
    destruct (migrate_run_fst_snd e revertError s) as [-> ->].
    destruct (Umzug.pending_files e s) as [|p ps] eqn:Hp.
    { now rewrite migrate_run_no_pending. }
    assert (Hne : Umzug.pending_files e s <> []) by (rewrite Hp; discriminate).
    destruct (Umzug.up e (applying s)) as [[l|err] s1] eqn:Hup.
    { rewrite migrate_run_pending, Hup by assumption. reflexivity. }
    assert (Hfail : fst (migrate e revertError s) <> Returned true).
    { apply up_rejected_fails with (err := err). now rewrite Hup. }
    destruct revertError.
    + destruct (auto_revert_cases e s Hfail)
        as [(s' & -> & _ & _ & Hc) | (f & s' & _ & [-> | ->] & Hc)]; exact Hc.
    + destruct (apply_rejected e false s Hfail) as (_ & _ & ->).
      pose proof (diagnose_report_only e (Umzug.pending_files e s) (failure_state e s)) as E.
      cbv zeta in E. rewrite E. reflexivity.
  - (* revert *)
    intros times name s. destruct (truthy name) eqn:Hn.
    + rewrite revert_by_name by assumption.
      apply reverted_then_closed_connected. exact (down_migrations_connected _ _ _).
    + destruct (Z.lt_trichotomy times 1) as [Hlt | [-> | Hgt]].
      * now rewrite revert_invalid.
      * rewrite revert_last by assumption.
        apply reverted_then_closed_connected. rewrite down_last_unfold.
        cbn [ledger]. destruct (rev (ledger s)); [reflexivity|].
        exact (down_migrations_connected _ _ _).
      * pose proof (revert_by_count e times name s Hn Hgt) as E. cbv zeta in E.
        rewrite E. destruct (firstn (Z.to_nat times) (rev (ledger s))); [reflexivity|].
        apply reverted_then_closed_connected. exact (down_migrations_connected _ _ _).
  - (* reset *)
    intros s. rewrite reset_unfold. apply reverted_then_closed_connected.
    rewrite down_to_0_unfold. exact (down_migrations_connected _ _ _).
  - (* list *)
    intros status s. destruct (list_run e status s) as (-> & -> & _). reflexivity.
Qed.

(** C4 as stated fails: revert with times = 0 and no name throws before
    [this.sequelize.close()] is reached, so the connection stays open; so
    does reset when a down() rejects. *)
Lemma C4_counterexample :
  (fst (revert (env_of abc [] []) 0 None (fresh abc))
   = Threw (JsError "--times must be greater than 0") /\
   connected (snd (revert (env_of abc [] []) 0 None (fresh abc))) = true) /\
  (fst (reset (env_of abc [] ["002_b"]) (fresh abc)) = Threw (DownRejected "002_b") /\
   connected (snd (reset (env_of abc [] ["002_b"]) (fresh abc))) = true).
Proof. vm_compute. repeat split; reflexivity. Qed.

(** ** Reversal: which units are reverted, and in which order; idempotence *)

Lemma execute_down_resolves (e : Env) (ms : list string) (s : State) :
  (forall f, In f ms ->
             forall st, down_resolves e f st = true /\ unlogMigration_resolves e f st = true) ->
  exists l, fst (Umzug.execute_down e ms s) = Returned l.
Proof.
  revert s. induction ms as [|f ms IH]; intros s H.
  - exists []. reflexivity.
  - rewrite execute_down_cons. cbv zeta.
    destruct (H f (or_introl eq_refl) s) as [-> _].
    destruct (H f (or_introl eq_refl)
                (mkState (ledger s) (trace s ++ [RunDown f]) (connected s))) as [_ ->].
    match goal with |- context [Umzug.execute_down e ms ?s1] =>
      destruct (IH s1) as [l Hl]; [intros g Hg; apply H; now right|];
      destruct (Umzug.execute_down e ms s1) as [[l'|err] s2]
    end; cbn [fst snd] in *; [eauto | discriminate].
Qed.

(** A [umzug.down({migrations})] call that revert or reset saw resolve. *)
Lemma reverted_returned (e : Env) (ms : list string) (s0 s' : State) :
  reverted_then_closed (Umzug.down_migrations e ms s0) = (Returned tt, s') ->
  downs_of (trace s') = (downs_of (trace s0) ++ ms)%list /\
  ledger s' = filter (fun g => negb (includes g ms)) (ledger s0) /\
  In (CliLog (nat_str (List.length ms) ++ " reverted migrations")) (trace s') /\
  connected s' = false.
Proof.
  intros Hrun. destruct (down_migrations_spec e ms s0) as [_ Hspec].
  destruct (Umzug.down_migrations e ms s0) as [[l|err] s1]; [|discriminate].
  cbn [fst snd reverted_then_closed] in *. destruct Hspec as (-> & Ht & Hl).
  injection Hrun as <-. cbn [ledger trace connected]. rewrite Ht, Hl.
  repeat split.
  - rewrite !downs_of_app. cbn [downs_of].
    now rewrite downs_of_RunDown, downs_of_console, app_nil_r.
  - rewrite length_map. apply in_or_app. right. now left.
Qed.

(** When every unit it names exists and its down() and ledger removal
    resolve, the call resolves. *)
Lemma reverted_resolves (e : Env) (ms : list string) (s0 : State) :
  (forall f, In f ms ->
             In f (files e) /\
             forall st, down_resolves e f st = true /\ unlogMigration_resolves e f st = true) ->
  exists s', reverted_then_closed (Umzug.down_migrations e ms s0) = (Returned tt, s').
Proof.
  intros H. rewrite down_migrations_found by (intros f Hf; now apply H).
  destruct (execute_down_resolves e ms s0) as [l Hl]; [intros f Hf; now apply H|].
  destruct (Umzug.execute_down e ms s0) as [[l'|err] s1]; [|discriminate].
  eexists. reflexivity.
Qed.

(** Revert by count runs down() on the most recent ledger entries, most
    recent first. *)
Lemma revert_count_most_recent_first (e : Env) (times : Z) (name : option string)
      (s s' : State) :
  truthy name = false -> (1 < times)%Z ->
  revert e times name s = (Returned tt, s') ->
  downs_of (trace s') = (downs_of (trace s) ++ firstn (Z.to_nat times) (rev (ledger s)))%list.
Proof.
  intros Hn Ht Hrun.
  pose proof (revert_by_count e times name s Hn Ht) as E. cbv zeta in E.
  rewrite E in Hrun. clear E.
  destruct (firstn (Z.to_nat times) (rev (ledger s))) as [|r rs].
  - injection Hrun as <-. cbn [trace]. rewrite !downs_of_app. simpl.
    now rewrite !app_nil_r.
  - apply reverted_returned in Hrun as (-> & _). cbn [trace].
    rewrite downs_of_app. simpl. now rewrite app_nil_r.
Qed.

(** Reset runs down() on every ledger entry, most recent first. *)
Lemma reset_most_recent_first (e : Env) (s s' : State) :
  reset e s = (Returned tt, s') ->
  downs_of (trace s') = (downs_of (trace s) ++ rev (ledger s))%list.
Proof.
  intros Hrun. rewrite reset_unfold, down_to_0_unfold in Hrun. cbn [ledger] in Hrun.
  apply reverted_returned in Hrun as (-> & _). cbn [trace].
  rewrite downs_of_app. simpl. now rewrite app_nil_r.
Qed.

(** The auto-revert of migrate runs down() on the ledger-confirmed pending
    units in the order in which they were just applied: oldest first. *)
Lemma auto_revert_oldest_first (e : Env) (s s' : State) (report : FailureReport) :
  NoDup (files e) ->
  migrate_run e true s = (Returned (false, Some report), s') ->
  ledger (failure_state e s) = (ledger s ++ committedBeforeFailure report)%list /\
  downs_of (trace s') = (downs_of (trace s) ++ committedBeforeFailure report)%list.
Proof.
  intros Hnd Hrun.
  assert (Hfail : fst (migrate e true s) <> Returned true).
  { destruct (migrate_run_fst_snd e true s) as [_ ->]. rewrite Hrun. discriminate. }
  destruct (failure_prefix e true s Hnd Hfail) as (f & rest & _ & Hl & _).
  destruct (auto_revert_cases e s Hfail)
    as [(s1 & Hrun' & _ & Hd & _) | (g & s1 & _ & Hrun' & _)]; cbv zeta in *.
  - rewrite Hrun in Hrun'. injection Hrun' as -> ->. cbn [committedBeforeFailure].
    split; assumption.
  - rewrite Hrun in Hrun'. destruct Hrun'; discriminate.
Qed.

(** C5, at the failing input: three pending units, the up() of 003_c
    rejects, auto-revert is enabled.  001_a and 002_b were applied in that
    order and their down() is run in that same order, oldest first, whereas
    revert by count and reset run 002_b before 001_a. *)
Lemma C5_auto_revert_order :
  ups_of (trace (snd (migrate (env_of abc ["003_c"] []) true (fresh []))))
  = ["001_a"; "002_b"; "003_c"] /\
  downs_of (trace (snd (migrate (env_of abc ["003_c"] []) true (fresh []))))
  = ["001_a"; "002_b"] /\
  downs_of (trace (snd (revert (env_of abc [] []) 2 None (fresh ["001_a"; "002_b"]))))
  = ["002_b"; "001_a"] /\
  downs_of (trace (snd (reset (env_of abc [] []) (fresh ["001_a"; "002_b"]))))
  = ["002_b"; "001_a"].
Proof. vm_compute. repeat split; reflexivity. Qed.

(** C6. For every revert call with no name and N > 1 greater than the
    number of ledger entries, N being too large is not an error: every ledger
    entry is selected.  With zero entries "There isn't migrations to revert"
    is printed after the first log line, no down() is run and the call
    returns.  When the file of every entry exists and its down() and ledger
    removal resolve, the call returns, down() was run on exactly the ledger
    entries (all of them, most recent first), the ledger ends empty and their
    number is printed.  If the call throws at all, the error comes from one of
    the ledger entries (not found, or its down() or ledger removal
    rejected). *)
Theorem C6_revert_count_clamped (e : Env) (times : Z) (name : option string)
        (s : State) :
  truthy name = false ->
  (1 < times)%Z ->
  (Z.of_nat (List.length (ledger s)) < times)%Z ->
  (ledger s = [] ->
   exists line,
     revert e times name s =
     (Returned tt,
      mkState []
        (trace s ++ [CliLog line; CliLog "There isn't migrations to revert"])
        false)) /\
  ((forall f, In f (ledger s) ->
              In f (files e) /\
              forall st, down_resolves e f st = true /\
                         unlogMigration_resolves e f st = true) ->
   exists s',
     revert e times name s = (Returned tt, s') /\
     downs_of (trace s') = (downs_of (trace s) ++ rev (ledger s))%list /\
     List.length (rev (ledger s)) = List.length (ledger s) /\
     ledger s' = [] /\
     (ledger s <> [] ->
      In (CliLog (nat_str (List.length (ledger s)) ++ " reverted migrations"))
         (trace s'))) /\
  (forall err,
      fst (revert e times name s) = Threw err ->
      exists f, In f (ledger s) /\
                (err = MigrationNotFound f \/ err = DownRejected f \/
                 err = UnlogRejected f)).
Proof.
  intros Hn Hgt Hlen.
  pose proof (revert_by_count e times name s Hn Hgt) as E. cbv zeta in E.
  rewrite firstn_all2 in E by (rewrite length_rev; lia).
  split; [|split].
  - intros Hl. rewrite E, Hl. cbn [rev].
    exists ("Trying to revert the last " ++ Z_str times ++ " migrations").
    cbn [trace]. now rewrite <- app_assoc.
  - intros Hok. rewrite E. clear E.
    destruct (rev (ledger s)) as [|r rs] eqn:Hrev.
    + assert (Hl : ledger s = []).
      { rewrite <- (rev_involutive (ledger s)), Hrev. reflexivity. }
      eexists. split; [reflexivity|]. cbn [ledger trace connected]. rewrite ?Hl.
      repeat split.
      * rewrite !downs_of_app. simpl. now rewrite !app_nil_r.
      * congruence.
    + rewrite <- Hrev.
      match goal with |- context [Umzug.down_migrations e ?ms ?s0] =>
        destruct (reverted_resolves e ms s0) as [s' Hrun]
      end.
      { intros f Hf. apply Hok. now apply in_rev. }
      exists s'. split; [exact Hrun|].
      apply reverted_returned in Hrun as (Hd & Hl & Hin & _).
      cbn [ledger trace connected] in *. repeat split.
      * rewrite Hd, downs_of_app. simpl. now rewrite app_nil_r.
      * apply length_rev.
      * rewrite Hl. apply filter_none. intros x Hx.
        apply negb_false_iff, includes_In. now apply in_rev in Hx.
      * intros _. now rewrite length_rev in Hin.
  - intros err Herr. rewrite E in Herr. clear E.
    destruct (rev (ledger s)) as [|r rs] eqn:Hrev; [discriminate|].
    rewrite <- Hrev in Herr.
    match type of Herr with context [Umzug.down_migrations e ?ms ?s0] =>
      destruct (down_migrations_spec e ms s0) as [_ Hspec];
      destruct (Umzug.down_migrations e ms s0) as [[l|err'] s1]
    end; cbn [fst snd reverted_then_closed] in *; [discriminate|].
    injection Herr as ->. destruct Hspec as (f & Hf & Hcase).
    exists f. split; [now apply in_rev | exact Hcase].
Qed.

(** C6, at a concrete call: three ledger entries, N = 12. *)
Lemma C6_revert_count_clamped_witness :
  (ledger (fresh abc) = [] ->
   exists line,
     revert (env_of abc [] []) 12 None (fresh abc) =
     (Returned tt,
      mkState []
        (trace (fresh abc) ++ [CliLog line; CliLog "There isn't migrations to revert"])
        false)) /\
  ((forall f, In f (ledger (fresh abc)) ->
              In f (files (env_of abc [] [])) /\
              forall st, down_resolves (env_of abc [] []) f st = true /\
                         unlogMigration_resolves (env_of abc [] []) f st = true) ->
   exists s',
     revert (env_of abc [] []) 12 None (fresh abc) = (Returned tt, s') /\
     downs_of (trace s') = (downs_of (trace (fresh abc)) ++ rev (ledger (fresh abc)))%list /\
     List.length (rev (ledger (fresh abc))) = List.length (ledger (fresh abc)) /\
     ledger s' = [] /\
     (ledger (fresh abc) <> [] ->
      In (CliLog (nat_str (List.length (ledger (fresh abc))) ++ " reverted migrations"))
         (trace s'))) /\
  (forall err,
      fst (revert (env_of abc [] []) 12 None (fresh abc)) = Threw err ->
      exists f, In f (ledger (fresh abc)) /\
                (err = MigrationNotFound f \/ err = DownRejected f \/
                 err = UnlogRejected f)).
Proof.
  apply (C6_revert_count_clamped (env_of abc [] []) 12 None (fresh abc)).
  - reflexivity.
  - lia.
  - simpl. lia.
Defined.

(** C7. Every revert call with times < 1 and no name (null, or the empty
    string, which JavaScript also treats as absent) throws
    "--times must be greater than 0" at once: the state it was called in is
    the state it leaves, with nothing logged, no down() run and the ledger
    untouched. *)
Theorem C7_revert_rejects_times_below_1 (e : Env) (times : Z) (name : option string)
        (s : State) :
  (times < 1)%Z ->
  name = None \/ name = Some "" ->
  revert e times name s = (Threw (JsError "--times must be greater than 0"), s).
Proof.
  intros Ht Hn. apply revert_invalid; [exact Ht|].
  destruct Hn as [-> | ->]; reflexivity.
Qed.

(** C7, at a concrete call. *)
Lemma C7_revert_rejects_times_below_1_witness :
  revert (env_of abc [] []) 0 None (fresh abc)
  = (Threw (JsError "--times must be greater than 0"), fresh abc).
Proof.
  apply (C7_revert_rejects_times_below_1 (env_of abc [] []) 0 None (fresh abc)).
  - lia.
  - left. reflexivity.
Defined.

(** After a run of [migrate] that returned [true], every unit file is in
    the ledger. *)
Lemma nothing_pending_after_success (e : Env) (revertError : bool) (s s1 : State) :
  migrate e revertError s = (Returned true, s1) ->
  forall f, In f (files e) -> In f (ledger s1).
Proof.
  intros Hrun f Hf.
  destruct (migrate_run_fst_snd e revertError s) as [Hsnd Hfst].
  rewrite Hrun in Hsnd, Hfst. cbn [fst snd] in Hsnd, Hfst. subst s1.
  destruct (Umzug.pending_files e s) as [|p ps] eqn:Hp.
  - rewrite migrate_run_no_pending by assumption. cbn [snd ledger].
    destruct (in_dec string_dec f (ledger s)) as [Hin | Hout]; [assumption|].
    assert (Hpf : In f (Umzug.pending_files e s)) by now apply pending_files_In.
    rewrite Hp in Hpf. contradiction.
  - assert (Hne : Umzug.pending_files e s <> []) by (rewrite Hp; discriminate).
    rewrite migrate_run_pending in * by assumption.
    rewrite up_unfold in *.
    change (Umzug.pending_files e (applying s)) with (Umzug.pending_files e s) in *.
    destruct (execute_up_spec e (Umzug.pending_files e s) (applying s))
      as (done & rest & Hms & Hl & _ & Hr).
    destruct (Umzug.execute_up e (Umzug.pending_files e s) (applying s))
      as [[l|err] s2]; cbn [fst snd ledger] in *.
    + destruct Hr as (-> & _ & _). rewrite app_nil_r in Hms. subst done.
      rewrite Hl. apply in_or_app.
      destruct (in_dec string_dec f (ledger s)) as [Hin | Hout]; [now left|].
      right. now apply pending_files_In.
    + destruct (diagnose e revertError (Umzug.pending_files e s) s2) as [[report|err'] s3];
        discriminate.
Qed.

(** C8. After a run of migrate that returned [true], a second run over the
    same unit files, started on an open connection from the ledger the first
    one left, finds no pending migration, prints
    "No pending migrations to apply", runs no up(), leaves the ledger as it is
    and returns [true].  (The ledger reads of the model always answer; the
    second run is therefore taken on a connection that is open, as after a
    fresh initialize.) *)
Theorem C8_apply_idempotent (e : Env) (revertError revertError' : bool)
        (s s1 s2 : State) :
  migrate e revertError s = (Returned true, s1) ->
  ledger s2 = ledger s1 ->
  connected s2 = true ->
  Umzug.pending_files e s2 = [] /\
  migrate e revertError' s2 =
  (Returned true,
   mkState (ledger s2)
     (trace s2 ++ [CliLog "Looking for pending migrations...";
                   CliLog "No pending migrations to apply"])
     false) /\
  ups_of (trace (snd (migrate e revertError' s2))) = ups_of (trace s2).
Proof.
  intros Hrun Hl _.
  assert (Hp : Umzug.pending_files e s2 = []).
  { unfold Umzug.pending_files. apply filter_none. intros f Hf.
    apply negb_false_iff, includes_In. rewrite Hl.
    exact (nothing_pending_after_success e revertError s s1 Hrun f Hf). }
  assert (Hm : migrate e revertError' s2 =
               (Returned true,
                mkState (ledger s2)
                  (trace s2 ++ [CliLog "Looking for pending migrations...";
                                CliLog "No pending migrations to apply"])
                  false)).
  { unfold migrate, bind. rewrite migrate_run_no_pending by assumption. reflexivity. }
  repeat split; [assumption | assumption |].
  rewrite Hm. cbn [snd trace]. rewrite ups_of_app. simpl. apply app_nil_r.
Qed.

(** C8, at a concrete pair of runs: the first applies three units on an
    open connection, the second starts on a connection opened anew, from the
    ledger the first one left. *)
Lemma C8_apply_idempotent_witness :
  Umzug.pending_files (env_of abc [] []) (fresh abc) = [] /\
  migrate (env_of abc [] []) false (fresh abc) =
  (Returned true,
   mkState (ledger (fresh abc))
     (trace (fresh abc)
      ++ [CliLog "Looking for pending migrations...";
          CliLog "No pending migrations to apply"])
     false) /\
  ups_of (trace (snd (migrate (env_of abc [] []) false (fresh abc))))
  = ups_of (trace (fresh abc)).
Proof.
  apply (C8_apply_idempotent (env_of abc [] []) false false (fresh [])
           (snd (migrate (env_of abc [] []) false (fresh [])))
           (fresh abc)).
  - vm_compute. reflexivity.
  - reflexivity.
  - reflexivity.
Defined.

(** C10 (amended). For every revert call with a non-empty name, the
    outcome, the final state and everything printed are the same whatever
    [times] is, and the "--times must be greater than 0" error is not
    raised. *)
Theorem C10_times_ignored_with_name (e : Env) (times times' : Z) (n : string)
        (s : State) :
  n <> "" ->
  revert e times (Some n) s = revert e times' (Some n) s /\
  fst (revert e times (Some n) s) <> Threw (JsError "--times must be greater than 0").
Proof.
  intros Hn.
  assert (Ht : truthy (Some n) = true).
  { simpl. apply negb_true_iff, String.eqb_neq. exact Hn. }
  rewrite !(revert_by_name e _ (Some n) s Ht). split; [reflexivity|].
  match goal with |- context [Umzug.down_migrations e ?ms ?s0] =>
    destruct (down_migrations_spec e ms s0) as [_ Hspec];
    destruct (Umzug.down_migrations e ms s0) as [[l|err] s1]
  end; cbn [fst snd reverted_then_closed] in *; [discriminate|].
  destruct Hspec as (f & _ & [-> | [-> | ->]]); discriminate.
Qed.

(** C10 (amended), at a concrete call: times = 0 with a name. *)
Lemma C10_times_ignored_with_name_witness :
  revert (env_of abc [] []) 0 (Some "002_b") (fresh abc)
  = revert (env_of abc [] []) 7 (Some "002_b") (fresh abc) /\
  fst (revert (env_of abc [] []) 0 (Some "002_b") (fresh abc))
  <> Threw (JsError "--times must be greater than 0").
Proof.
  apply (C10_times_ignored_with_name (env_of abc [] []) 0 7 "002_b" (fresh abc)).
  discriminate.
Defined.

(** C10 as stated fails for the empty string, a name that is not null:
    revert(0, "") raises the times error, and revert(1, "") and revert(2, "")
    revert one and two migrations. *)
Lemma C10_counterexample :
  fst (revert (env_of abc [] []) 0 (Some "") (fresh abc))
  = Threw (JsError "--times must be greater than 0") /\
  ledger (snd (revert (env_of abc [] []) 1 (Some "") (fresh abc))) = ["001_a"; "002_b"] /\
  ledger (snd (revert (env_of abc [] []) 2 (Some "") (fresh abc))) = ["001_a"].
Proof. vm_compute. repeat split; reflexivity. Qed.

(** ** Scenarios *)

(** Three units, none applied, every up() resolves. *)
Example scenario_all_applied :
  migrate (env_of abc [] []) false (fresh []) =
  (Returned true,
   mkState abc
     [CliLog "Looking for pending migrations..."; CliLog "Applying pending migrations...";
      RunUp "001_a"; RunUp "002_b"; RunUp "003_c";
      CliLog "3 applied migrations";
      ConsoleLog "=> 001_a"; ConsoleLog "=> 002_b"; ConsoleLog "=> 003_c"]
     false).
Proof. vm_compute. reflexivity. Qed.

(** The up() of 002_b rejects, no auto-revert: 001_a stays applied. *)
Example scenario_second_unit_broken :
  migrate (env_of abc ["002_b"] []) false (fresh []) =
  (Returned false,
   mkState ["001_a"]
     [CliLog "Looking for pending migrations..."; CliLog "Applying pending migrations...";
      RunUp "001_a"; RunUp "002_b";
      CliLog "Error while applying migrations";
      CliLog "Looking for migration that has problems...";
      CliLog "Something wrong with 002_b"]
     false).
Proof. vm_compute. reflexivity. Qed.

(** The same with auto-revert: 001_a is reverted and the ledger ends empty. *)
Example scenario_second_unit_broken_reverted :
  migrate (env_of abc ["002_b"] []) true (fresh []) =
  (Returned false,
   mkState []
     [CliLog "Looking for pending migrations..."; CliLog "Applying pending migrations...";
      RunUp "001_a"; RunUp "002_b";
      CliLog "Error while applying migrations";
      CliLog "Looking for migration that has problems...";
      CliLog "Something wrong with 002_b";
      CliLog "Reverting applied migrations...";
      RunDown "001_a"; ConsoleLog "=> reverted 001_a"]
     false).
Proof. vm_compute. reflexivity. Qed.

(** Three units applied, revert(2): 003_c then 002_b. *)
Example scenario_revert_two :
  revert (env_of abc [] []) 2 None (fresh abc) =
  (Returned tt,
   mkState ["001_a"]
     [CliLog "Trying to revert the last 2 migrations";
      RunDown "003_c"; RunDown "002_b";
      CliLog "2 reverted migrations"; ConsoleLog "=> 003_c"; ConsoleLog "=> 002_b"]
     false).
Proof. vm_compute. reflexivity. Qed.

(** Three units, one applied, list("pending"). *)
Example scenario_list_pending :
  list_ (env_of abc [] []) "pending" (fresh ["001_a"]) =
  (Returned tt,
   mkState ["001_a"]
     [CliLog "Searching for pending migrations..."; CliLog "2 pending migrations";
      ConsoleLog "=> 002_b"; ConsoleLog "=> 003_c"]
     false).
Proof. vm_compute. reflexivity. Qed.

(** ** Further properties: migrate *)

Lemma execute_up_resolves (e : Env) (ms : list string) (s : State) :
  (forall f, In f ms ->
             forall st, up_resolves e f st = true /\ logMigration_resolves e f st = true) ->
  exists l, fst (Umzug.execute_up e ms s) = Returned l.
Proof.
  revert s. induction ms as [|f ms IH]; intros s H.
  - exists []. reflexivity.
  - rewrite execute_up_cons. cbv zeta.
    destruct (H f (or_introl eq_refl) s) as [-> _].
    destruct (H f (or_introl eq_refl)
                (mkState (ledger s) (trace s ++ [RunUp f]) (connected s))) as [_ ->].
    match goal with |- context [Umzug.execute_up e ms ?s1] =>
      destruct (IH s1) as [l Hl]; [intros g Hg; apply H; now right|];
      destruct (Umzug.execute_up e ms s1) as [[l'|err] s2]
    end; cbn [fst snd] in *; [eauto | discriminate].
Qed.

Lemma migrate_of_run (e : Env) (revertError : bool) (s s' : State)
      (success : bool) (report : option FailureReport) :
  migrate_run e revertError s = (Returned (success, report), s') ->
  migrate e revertError s = (Returned success, s').
Proof. intros H. unfold migrate, bind. now rewrite H. Qed.

(** What [migrate] does when [umzug.up()] resolves. *)
Lemma migrate_up_resolved (e : Env) (revertError : bool) (s s1 : State)
      (l : list Migration) :
  Umzug.pending_files e s <> [] ->
  Umzug.up e (applying s) = (Returned l, s1) ->
  migrate e revertError s =
  (Returned true,
   mkState (ledger s ++ Umzug.pending_files e s)
     (trace s ++ [CliLog "Looking for pending migrations...";
                  CliLog "Applying pending migrations..."]
      ++ map RunUp (Umzug.pending_files e s)
      ++ CliLog (nat_str (List.length (Umzug.pending_files e s)) ++ " applied migrations")
         :: map (fun f => ConsoleLog ("=> " ++ f)) (Umzug.pending_files e s))
     false).
Proof.
  intros Hne Hup. apply migrate_of_run with (report := None).
  rewrite migrate_run_pending, Hup by assumption.
  rewrite up_unfold in Hup.
  change (Umzug.pending_files e (applying s)) with (Umzug.pending_files e s) in Hup.
  destruct (execute_up_spec e (Umzug.pending_files e s) (applying s))
    as (done & rest & Hms & Hl & _ & Hr).
  rewrite Hup in Hl, Hr. cbn [fst snd] in Hl, Hr. destruct Hr as (-> & -> & Ht).
  rewrite app_nil_r in Hms. rewrite <- Hms in Hl. rewrite Hl, Ht.
  unfold applying. cbn [ledger trace].
  rewrite length_map, map_map, <- !app_assoc. reflexivity.
Qed.

(** [migrate] when the up() and the ledger append of every pending unit
    resolve. *)
Lemma migrate_all_resolved (e : Env) (revertError : bool) (s : State) :
  (forall f, In f (Umzug.pending_files e s) ->
             forall st, up_resolves e f st = true /\ logMigration_resolves e f st = true) ->
  exists s',
    migrate e revertError s = (Returned true, s') /\
    ledger s' = (ledger s ++ Umzug.pending_files e s)%list /\
    ups_of (trace s') = (ups_of (trace s) ++ Umzug.pending_files e s)%list /\
    downs_of (trace s') = downs_of (trace s) /\
    connected s' = false /\
    (Umzug.pending_files e s <> [] ->
     In (CliLog (nat_str (List.length (Umzug.pending_files e s)) ++ " applied migrations"))
        (trace s')).
Proof.
  intros Hok.
  destruct (list_eq_dec string_dec (Umzug.pending_files e s) []) as [Hp | Hne].
  - eexists. split.
    { apply migrate_of_run with (report := None).
      now apply migrate_run_no_pending. }
    cbn [ledger trace connected]. rewrite Hp, ups_of_app, downs_of_app. simpl.
    rewrite !app_nil_r. repeat split; congruence.
  - destruct (execute_up_resolves e (Umzug.pending_files e s) (applying s) Hok) as [l Hl].
    assert (Hup : Umzug.up e (applying s)
                  = (Returned l, snd (Umzug.up e (applying s)))).
    { rewrite up_unfold.
      change (Umzug.pending_files e (applying s)) with (Umzug.pending_files e s).
      destruct (Umzug.execute_up e (Umzug.pending_files e s) (applying s)) as [o s1].
      cbn [fst snd] in *. now subst o. }
    pose proof (migrate_up_resolved e revertError s _ l Hne Hup) as Hrun.
    eexists. split; [exact Hrun|].
    cbn [ledger trace connected].
    rewrite !ups_of_app, !downs_of_app. cbn [ups_of downs_of].
    rewrite ups_of_RunUp, downs_of_RunUp.
    rewrite (ups_of_console (fun f => "=> " ++ f)), (downs_of_console (fun f => "=> " ++ f)).
    cbn [app]. rewrite !app_nil_r. repeat split.
    intros _. apply in_or_app. right. right. right.
    apply in_or_app. right. now left.
Qed.

(** X2. When the up() and the ledger append of every pending unit resolve,
    migrate returns [true]: the pending units have their up() run in
    definition order, the ledger then holds what it held before and every
    pending unit, no down() is run, the count is printed and the connection
    is closed. *)
Theorem X2_migrate_applies_all_pending (e : Env) (revertError : bool) (s : State) :
  (forall f, In f (Umzug.pending_files e s) ->
             forall st, up_resolves e f st = true /\ logMigration_resolves e f st = true) ->
  exists s',
    migrate e revertError s = (Returned true, s') /\
    (forall g, In g (ledger s') <-> In g (ledger s) \/ In g (Umzug.pending_files e s)) /\
    ups_of (trace s') = (ups_of (trace s) ++ Umzug.pending_files e s)%list /\
    downs_of (trace s') = downs_of (trace s) /\
    connected s' = false /\
    (Umzug.pending_files e s <> [] ->
     In (CliLog (nat_str (List.length (Umzug.pending_files e s)) ++ " applied migrations"))
        (trace s')).
Proof.
  intros Hok.
  destruct (migrate_all_resolved e revertError s Hok)
    as (s' & Hrun & Hl & Hu & Hd & Hc & Hin).
  exists s'. split; [exact Hrun|]. split; [|auto].
  intros g. rewrite Hl. apply in_app_iff.
Qed.

(** X2, at a concrete run: one unit applied, two pending. *)
Lemma X2_migrate_applies_all_pending_witness :
  exists s',
    migrate (env_of abc [] []) false (fresh ["001_a"]) = (Returned true, s') /\
    (forall g, In g (ledger s') <->
               In g (ledger (fresh ["001_a"])) \/
               In g (Umzug.pending_files (env_of abc [] []) (fresh ["001_a"]))) /\
    ups_of (trace s') = (ups_of (trace (fresh ["001_a"]))
                         ++ Umzug.pending_files (env_of abc [] []) (fresh ["001_a"]))%list /\
    downs_of (trace s') = downs_of (trace (fresh ["001_a"])) /\
    connected s' = false /\
    (Umzug.pending_files (env_of abc [] []) (fresh ["001_a"]) <> [] ->
     In (CliLog (nat_str (List.length
                            (Umzug.pending_files (env_of abc [] []) (fresh ["001_a"])))
                 ++ " applied migrations"))
        (trace s')).
Proof.
  apply (X2_migrate_applies_all_pending (env_of abc [] []) false (fresh ["001_a"])).
  intros f _ st. split; reflexivity.
Defined.

(** [umzug.down({migrations})], whatever its outcome: ledger entries are
    only removed, no up() is run, the connection is left as it is. *)
Lemma down_migrations_effects (e : Env) (ms : list string) (s : State) :
  exists removed,
    (forall g, In g removed -> In g ms) /\
    ledger (snd (Umzug.down_migrations e ms s))
    = filter (fun g => negb (includes g removed)) (ledger s) /\
    ups_of (trace (snd (Umzug.down_migrations e ms s))) = ups_of (trace s) /\
    connected (snd (Umzug.down_migrations e ms s)) = connected s.
Proof.
  unfold Umzug.down_migrations, bind.
  destruct (find_all_cases e ms s) as [-> | (f & _ & _ & ->)].
  - destruct (execute_down_spec e ms s) as (done & rest & Hms & Hl & Hc & Hr).
    exists done. split; [intros g Hg; rewrite Hms; apply in_or_app; now left|].
    split; [exact Hl|]. split; [|exact Hc].
    destruct (Umzug.execute_down e ms s) as [[l|err] s1]; cbn [fst snd] in *.
    + destruct Hr as (_ & _ & ->). now rewrite ups_of_app, ups_of_RunDown, app_nil_r.
    + destruct Hr as (g & rest' & _ & _ & ->).
      now rewrite ups_of_app, ups_of_RunDown, app_nil_r.
  - exists []. cbn [fst snd]. rewrite filter_remove_nil. repeat split. contradiction.
Qed.

(** The [.catch] handler of [migrate], whatever its outcome: it only
    removes ledger entries, and only pending names; it runs no up(). *)
Lemma diagnose_effects (e : Env) (revertError : bool) (pendingMigrations : list string)
      (s1 : State) :
  exists removed,
    (forall g, In g removed -> In g pendingMigrations) /\
    ledger (snd (diagnose e revertError pendingMigrations s1))
    = filter (fun g => negb (includes g removed)) (ledger s1) /\
    ups_of (trace (snd (diagnose e revertError pendingMigrations s1))) = ups_of (trace s1) /\
    connected (snd (diagnose e revertError pendingMigrations s1)) = connected s1.
Proof.
  assert (Hplain : exists removed,
    (forall g, In g removed -> In g pendingMigrations) /\
    ledger (snd (diagnose e false pendingMigrations s1))
    = filter (fun g => negb (includes g removed)) (ledger s1) /\
    ups_of (trace (snd (diagnose e false pendingMigrations s1))) = ups_of (trace s1) /\
    connected (snd (diagnose e false pendingMigrations s1)) = connected s1).
  { pose proof (diagnose_report_only e pendingMigrations s1) as E. cbv zeta in E.
    rewrite E. cbn [snd ledger trace connected]. exists [].
    rewrite filter_remove_nil, ups_of_app. simpl. rewrite app_nil_r.
    repeat split. contradiction. }
  destruct revertError; [|exact Hplain].
  destruct (executedFromPending pendingMigrations (ledger s1)) as [|c cs] eqn:Hc.
  - rewrite (diagnose_nothing_committed e true pendingMigrations s1 Hc). exact Hplain.
  - clear Hplain.
    pose proof (diagnose_auto_revert e pendingMigrations s1) as E. cbv zeta in E.
    rewrite Hc in E. rewrite E by discriminate. clear E.
    match goal with |- context [Umzug.down_migrations e ?ms ?s2] =>
      destruct (down_migrations_effects e ms s2) as (removed & Hsub & Hl & Hu & Hcn);
      destruct (Umzug.down_migrations e ms s2) as [[l|err] s3]
    end; cbn [fst snd ledger trace connected] in *;
      exists removed; rewrite ?ups_of_app, ?ups_of_console, Hu, Hl, Hcn, ?ups_of_app;
      simpl; rewrite ?app_nil_r; repeat split;
      intros g Hg; apply Hsub in Hg; rewrite <- Hc in Hg;
      now apply executedFromPending_In in Hg.
Qed.

(** The state a failing run of [migrate] ends in is the one its [.catch]
    handler ends in, but for the connection. *)
Lemma failing_run_state (e : Env) (revertError : bool) (s : State) :
  fst (migrate e revertError s) <> Returned true ->
  ledger (snd (migrate e revertError s))
  = ledger (snd (diagnose e revertError (Umzug.pending_files e s) (failure_state e s))) /\
  trace (snd (migrate e revertError s))
  = trace (snd (diagnose e revertError (Umzug.pending_files e s) (failure_state e s))).
Proof.
  intros Hfail. destruct (apply_rejected e revertError s Hfail) as (_ & _ & Hrun).
  destruct (migrate_run_fst_snd e revertError s) as [-> _]. rewrite Hrun.
  destruct (diagnose e revertError (Umzug.pending_files e s) (failure_state e s))
    as [[report|err] s2]; split; reflexivity.
Qed.

(** In a failing run with unique unit names, up() was run on the
    ledger-confirmed pending units and on the one after them, and on nothing
    else. *)
Lemma failure_trace (e : Env) (revertError : bool) (s : State) :
  NoDup (files e) ->
  fst (migrate e revertError s) <> Returned true ->
  let pendingNames := Umzug.pending_files e s in
  let committed := executedFromPending pendingNames (ledger (failure_state e s)) in
  exists broken after,
    pendingNames = (committed ++ broken :: after)%list /\
    ledger (failure_state e s) = (ledger s ++ committed)%list /\
    trace (failure_state e s)
    = (trace (applying s) ++ map RunUp (committed ++ [broken]))%list.
Proof.
  intros Hnd Hfail. cbv zeta.
  destruct (apply_rejected e revertError s Hfail) as (_ & (err & Hup) & _).
  destruct (failure_shape e s err Hup) as (done & f & rest & Hp & Hl & _ & Ht & _).
  assert (Hc : executedFromPending (Umzug.pending_files e s) (ledger (failure_state e s))
               = done).
  { rewrite Hl. apply committed_is_prefix with (rest := f :: rest).
    - now apply pending_files_NoDup.
    - intros x Hx. now apply pending_files_In in Hx.
    - exact Hp. }
  rewrite Hc. exists f, rest. auto.
Qed.

(** X3. In every failing run of migrate (unit names unique), up() is run
    on the ledger-confirmed pending units and then on the broken one, in
    definition order, and on no unit after the broken one, with or without
    auto-revert; the broken unit is not among the confirmed ones. *)
Theorem X3_migrate_stops_at_broken (e : Env) (revertError : bool) (s : State) :
  NoDup (files e) ->
  fst (migrate e revertError s) <> Returned true ->
  let pendingNames := Umzug.pending_files e s in
  let committed := executedFromPending pendingNames (ledger (failure_state e s)) in
  exists broken after,
    pendingNames = (committed ++ broken :: after)%list /\
    ups_of (trace (snd (migrate e revertError s)))
    = (ups_of (trace s) ++ committed ++ [broken])%list /\
    ~ In broken committed.
Proof.
  intros Hnd Hfail. cbv zeta.
  destruct (failure_trace e revertError s Hnd Hfail) as (f & rest & Hp & _ & Ht).
  cbv zeta in Hp, Ht. exists f, rest. split; [exact Hp|]. split.
  - destruct (failing_run_state e revertError s Hfail) as [_ ->].
    destruct (diagnose_effects e revertError (Umzug.pending_files e s) (failure_state e s))
      as (removed & _ & _ & -> & _).
    rewrite Ht. unfold applying. cbn [trace].
    rewrite !ups_of_app, ups_of_RunUp. simpl. now rewrite app_nil_r.
  - pose proof (pending_files_NoDup e s Hnd) as Hndp. rewrite Hp in Hndp.
    apply NoDup_remove_2 in Hndp. intros Hin. apply Hndp, in_or_app. now left.
Qed.

(** X3, at a concrete run with auto-revert: the second of three pending
    units is broken. *)
Lemma X3_migrate_stops_at_broken_witness :
  exists broken after,
    Umzug.pending_files (env_of abc ["002_b"] []) (fresh []) =
    (executedFromPending (Umzug.pending_files (env_of abc ["002_b"] []) (fresh []))
       (ledger (failure_state (env_of abc ["002_b"] []) (fresh [])))
     ++ broken :: after)%list /\
    ups_of (trace (snd (migrate (env_of abc ["002_b"] []) true (fresh []))))
    = (ups_of (trace (fresh []))
       ++ executedFromPending (Umzug.pending_files (env_of abc ["002_b"] []) (fresh []))
            (ledger (failure_state (env_of abc ["002_b"] []) (fresh [])))
       ++ [broken])%list /\
    ~ In broken
        (executedFromPending (Umzug.pending_files (env_of abc ["002_b"] []) (fresh []))
           (ledger (failure_state (env_of abc ["002_b"] []) (fresh [])))).
Proof.
  apply (X3_migrate_stops_at_broken (env_of abc ["002_b"] []) true (fresh [])).
  - repeat constructor; simpl; intuition discriminate.
  - vm_compute. discriminate.
Defined.

Lemma filter_andb (p q : string -> bool) (l : list string) :
  filter (fun x => p x && q x) l = filter q (filter p l).
Proof.
  induction l as [|x l IH]; [reflexivity|].
  simpl. destruct (p x); simpl; [destruct (q x)|]; now rewrite IH.
Qed.

(** Removing a duplicate-free suffix, named in any order, from a
    duplicate-free list leaves the rest. *)
Lemma filter_remove_suffix (a b : list string) :
  NoDup (a ++ b) ->
  filter (fun g => negb (includes g (rev b))) (a ++ b) = a.
Proof.
  intros Hnd. rewrite filter_app.
  rewrite forallb_filter_id, filter_none; [apply app_nil_r | |].
  - intros x Hx. apply negb_false_iff, includes_In. now apply in_rev in Hx.
  - apply forallb_forall. intros x Hx. apply negb_true_iff, includes_false.
    intros Hin. apply in_rev in Hin. exact (NoDup_app_disjoint a b Hnd x Hx Hin).
Qed.

Lemma filter_remove_prefix (a b : list string) :
  NoDup (a ++ b) ->
  filter (fun g => negb (includes g a)) (a ++ b) = b.
Proof.
  intros Hnd. rewrite filter_app.
  rewrite filter_none, forallb_filter_id; [reflexivity | |].
  - apply forallb_forall. intros x Hx. apply negb_true_iff, includes_false.
    intros Hin. exact (NoDup_app_disjoint a b Hnd x Hin Hx).
  - intros x Hx. now apply negb_false_iff, includes_In.
Qed.

(** Once a prefix of the pending units is in the ledger, the pending units
    are the rest. *)
Lemma pending_after_commit (e : Env) (s s' : State) (done rest : list string) :
  NoDup (files e) ->
  Umzug.pending_files e s = (done ++ rest)%list ->
  ledger s' = (ledger s ++ done)%list ->
  Umzug.pending_files e s' = rest.
Proof.
  intros Hnd Hp Hl. unfold Umzug.pending_files at 1. rewrite Hl.
  rewrite (filter_ext _ (fun f => negb (includes f (ledger s)) && negb (includes f done))).
  2:{ intros f. unfold includes. now rewrite existsb_app, negb_orb. }
  rewrite filter_andb. fold (Umzug.pending_files e s). rewrite Hp.
  apply filter_remove_prefix. rewrite <- Hp. now apply pending_files_NoDup.
Qed.

(** The state after a failing run of [migrate] without revert-on-error. *)
Lemma failing_run_resumes (e : Env) (s : State) :
  NoDup (files e) ->
  fst (migrate e false s) <> Returned true ->
  let pendingNames := Umzug.pending_files e s in
  let committed := executedFromPending pendingNames (ledger (failure_state e s)) in
  exists broken after,
    pendingNames = (committed ++ broken :: after)%list /\
    ledger (snd (migrate e false s)) = (ledger s ++ committed)%list /\
    Umzug.pending_files e (snd (migrate e false s)) = broken :: after.
Proof.
  intros Hnd Hfail. cbv zeta.
  destruct (failure_trace e false s Hnd Hfail) as (f & rest & Hp & Hl & _).
  cbv zeta in Hp, Hl. exists f, rest. split; [exact Hp|].
  assert (Hled : ledger (snd (migrate e false s))
                 = (ledger s ++ executedFromPending (Umzug.pending_files e s)
                                  (ledger (failure_state e s)))%list).
  { destruct (failing_run_state e false s Hfail) as [-> _].
    pose proof (diagnose_report_only e (Umzug.pending_files e s) (failure_state e s)) as E.
    cbv zeta in E. rewrite E. cbn [snd ledger]. exact Hl. }
  split; [exact Hled|].
  exact (pending_after_commit e s _ _ _ Hnd Hp Hled).
Qed.

(** X5. After a failing run of migrate without revert-on-error (unit names
    unique), the ledger holds what it held before and the ledger-confirmed
    units, and the pending units of the next run are the broken unit followed
    by the units after it: the next run resumes at the broken unit. *)
Theorem X5_migrate_resumes_at_broken (e : Env) (s : State) :
  NoDup (files e) ->
  fst (migrate e false s) <> Returned true ->
  let pendingNames := Umzug.pending_files e s in
  let committed := executedFromPending pendingNames (ledger (failure_state e s)) in
  exists broken after,
    pendingNames = (committed ++ broken :: after)%list /\
    (forall g, In g (ledger (snd (migrate e false s))) <->
               In g (ledger s) \/ In g committed) /\
    Umzug.pending_files e (snd (migrate e false s)) = broken :: after.
Proof.
  intros Hnd Hfail. cbv zeta.
  destruct (failing_run_resumes e s Hnd Hfail) as (f & rest & Hp & Hl & Hnext).
  cbv zeta in Hp, Hl, Hnext. exists f, rest. split; [exact Hp|]. split; [|exact Hnext].
  intros g. rewrite Hl. apply in_app_iff.
Qed.

(** X5, at a concrete run: the second of three pending units is broken. *)
Lemma X5_migrate_resumes_at_broken_witness :
  exists broken after,
    Umzug.pending_files (env_of abc ["002_b"] []) (fresh []) =
    (executedFromPending (Umzug.pending_files (env_of abc ["002_b"] []) (fresh []))
       (ledger (failure_state (env_of abc ["002_b"] []) (fresh [])))
     ++ broken :: after)%list /\
    (forall g,
        In g (ledger (snd (migrate (env_of abc ["002_b"] []) false (fresh [])))) <->
        In g (ledger (fresh [])) \/
        In g (executedFromPending
                (Umzug.pending_files (env_of abc ["002_b"] []) (fresh []))
                (ledger (failure_state (env_of abc ["002_b"] []) (fresh []))))) /\
    Umzug.pending_files (env_of abc ["002_b"] [])
      (snd (migrate (env_of abc ["002_b"] []) false (fresh [])))
    = broken :: after.
Proof.
  apply (X5_migrate_resumes_at_broken (env_of abc ["002_b"] []) (fresh [])).
  - repeat constructor; simpl; intuition discriminate.
  - vm_compute. discriminate.
Defined.

(** The ledger any run of [migrate] leaves: a prefix of the pending units
    appended, then some names removed. *)
Lemma migrate_ledger_shape (e : Env) (revertError : bool) (s : State) :
  exists done rest removed,
    Umzug.pending_files e s = (done ++ rest)%list /\
    ledger (snd (migrate e revertError s))
    = filter (fun g => negb (includes g removed)) (ledger s ++ done).
Proof.
  destruct (list_eq_dec string_dec (Umzug.pending_files e s) []) as [Hp | Hne].
  - exists [], [], []. split; [now rewrite Hp|].
    rewrite (migrate_of_run e revertError s _ true None
               (migrate_run_no_pending e revertError s Hp)).
    cbn [snd ledger]. now rewrite filter_remove_nil, app_nil_r.
  - destruct (Umzug.up e (applying s)) as [[l|err] s1] eqn:Hup.
    + exists (Umzug.pending_files e s), [], []. split; [now rewrite app_nil_r|].
      rewrite (migrate_up_resolved e revertError s s1 l Hne Hup).
      cbn [snd ledger]. now rewrite filter_remove_nil.
    + assert (Hfail : fst (migrate e revertError s) <> Returned true).
      { apply up_rejected_fails with (err := err). now rewrite Hup. }
      destruct (apply_rejected e revertError s Hfail) as (_ & (err' & Hup') & _).
      destruct (failure_shape e s err' Hup') as (done & f & rest & Hpf & Hl & _).
      destruct (failing_run_state e revertError s Hfail) as [-> _].
      destruct (diagnose_effects e revertError (Umzug.pending_files e s)
                  (failure_state e s)) as (removed & _ & -> & _).
      exists done, (f :: rest), removed. now rewrite Hl.
Qed.

(** X6. migrate keeps the ledger well formed (unit names unique): whatever
    its outcome, returned or thrown, a ledger without duplicates is left
    without duplicates, and every entry of the ledger it leaves was there
    before or is one of the units that were pending. *)
Theorem X6_migrate_keeps_ledger_well_formed (e : Env) (revertError : bool) (s : State) :
  NoDup (files e) ->
  NoDup (ledger s) ->
  NoDup (ledger (snd (migrate e revertError s))) /\
  forall f, In f (ledger (snd (migrate e revertError s))) ->
            In f (ledger s) \/ In f (Umzug.pending_files e s).
Proof.
  intros Hnd Hl.
  destruct (migrate_ledger_shape e revertError s) as (done & rest & removed & Hp & ->).
  split.
  - apply NoDup_filter, NoDup_app; [exact Hl | |].
    + apply NoDup_app_remove_r with (l' := rest). rewrite <- Hp.
      now apply pending_files_NoDup.
    + intros a Ha Hd.
      assert (Hpa : In a (Umzug.pending_files e s)).
      { rewrite Hp. apply in_or_app. now left. }
      apply pending_files_In in Hpa. now destruct Hpa.
  - intros f Hf. apply filter_In in Hf as [Hf _].
    apply in_app_or in Hf as [Hf|Hf]; [now left|].
    right. rewrite Hp. apply in_or_app. now left.
Qed.

(** X6, at a concrete failing run with auto-revert. *)
Lemma X6_migrate_keeps_ledger_well_formed_witness :
  NoDup (ledger (snd (migrate (env_of abc ["003_c"] ["002_b"]) true (fresh ["001_a"]))))
  /\
  forall f,
    In f (ledger (snd (migrate (env_of abc ["003_c"] ["002_b"]) true (fresh ["001_a"])))) ->
    In f (ledger (fresh ["001_a"])) \/
    In f (Umzug.pending_files (env_of abc ["003_c"] ["002_b"]) (fresh ["001_a"])).
Proof.
  apply (X6_migrate_keeps_ledger_well_formed (env_of abc ["003_c"] ["002_b"]) true
           (fresh ["001_a"])).
  - repeat constructor; simpl; intuition discriminate.
  - repeat constructor; simpl; intuition discriminate.
Defined.

(** ** Further properties: revert and reset *)

Lemma reverted_then_closed_effects (r : Outcome (list Migration) * State) :
  ledger (snd (reverted_then_closed r)) = ledger (snd r) /\
  ups_of (trace (snd (reverted_then_closed r))) = ups_of (trace (snd r)).
Proof.
  destruct r as [[l|err] s1]; cbn [reverted_then_closed snd ledger trace]; [|auto].
  split; [reflexivity|]. rewrite ups_of_app. cbn [ups_of].
  now rewrite (ups_of_console (fun m => "=> " ++ file m)), app_nil_r.
Qed.

(** X7. revert and reset only ever remove ledger entries and never run an
    up(): whatever the arguments and the outcome, returned or thrown, the
    ledger left is the ledger from before without some names, the remaining
    entries in their order. *)
Theorem X7_reversal_only_removes (e : Env) :
  (forall times name s,
      (exists removed,
          ledger (snd (revert e times name s))
          = filter (fun g => negb (includes g removed)) (ledger s)) /\
      ups_of (trace (snd (revert e times name s))) = ups_of (trace s)) /\
  (forall s,
      (exists removed,
          ledger (snd (reset e s))
          = filter (fun g => negb (includes g removed)) (ledger s)) /\
      ups_of (trace (snd (reset e s))) = ups_of (trace s)).
Proof.
  assert (Hdown : forall ms s0 s,
    ledger s0 = ledger s -> ups_of (trace s0) = ups_of (trace s) ->
    (exists removed,
        ledger (snd (reverted_then_closed (Umzug.down_migrations e ms s0)))
        = filter (fun g => negb (includes g removed)) (ledger s)) /\
    ups_of (trace (snd (reverted_then_closed (Umzug.down_migrations e ms s0))))
    = ups_of (trace s)).
  { intros ms s0 s Hl Hu.
    destruct (reverted_then_closed_effects (Umzug.down_migrations e ms s0)) as [-> ->].
    destruct (down_migrations_effects e ms s0) as (removed & _ & -> & -> & _).
    rewrite Hl, Hu. split; [now exists removed | reflexivity]. }
  assert (Hsame : forall s : State,
    exists removed, ledger s = filter (fun g => negb (includes g removed)) (ledger s)).
  { intros s. exists []. now rewrite filter_remove_nil. }
  assert (Hlog : forall (s : State) (line : string),
    ups_of (trace s ++ [CliLog line]) = ups_of (trace s)).
  { intros s line. rewrite ups_of_app. simpl. apply app_nil_r. }
  split.
  - intros times name s. destruct (truthy name) eqn:Hn.
    + rewrite revert_by_name by assumption. apply Hdown; [reflexivity | apply Hlog].
    + destruct (Z.lt_trichotomy times 1) as [Hlt | [-> | Hgt]].
      * rewrite revert_invalid by assumption. cbn [snd]. split; [apply Hsame | reflexivity].
      * rewrite revert_last, down_last_unfold by assumption. cbn [ledger].
        destruct (rev (ledger s)) as [|f fs].
        -- cbn [reverted_then_closed snd ledger trace List.length map].
           split; [apply Hsame|]. rewrite ups_of_app. simpl. rewrite app_nil_r.
           apply Hlog.
        -- apply Hdown; [reflexivity | apply Hlog].
      * pose proof (revert_by_count e times name s Hn Hgt) as E. cbv zeta in E.
        rewrite E. destruct (firstn (Z.to_nat times) (rev (ledger s))) as [|f fs].
        -- cbn [snd ledger trace]. split; [apply Hsame|].
           rewrite ups_of_app. simpl. rewrite app_nil_r. apply Hlog.
        -- apply Hdown; [reflexivity | apply Hlog].
  - intros s. rewrite reset_unfold, down_to_0_unfold. cbn [ledger].
    apply Hdown; [reflexivity | apply Hlog].
Qed.

(** X8. revert with the name of an applied unit (non-empty, in the ledger,
    a unit file) whose down() and ledger removal resolve returns, whatever
    [times] is: down() is run on that unit and on no other, the name leaves
    the ledger, every other entry stays in place, "1 reverted migrations" is
    printed and the connection is closed. *)
Theorem X8_revert_by_name_exact (e : Env) (times : Z) (n : string) (s : State) :
  n <> "" ->
  In n (ledger s) ->
  In n (files e) ->
  (forall st, down_resolves e n st = true /\ unlogMigration_resolves e n st = true) ->
  exists s',
    revert e times (Some n) s = (Returned tt, s') /\
    downs_of (trace s') = (downs_of (trace s) ++ [n])%list /\
    ledger s' = filter (fun g => negb (g =? n)) (ledger s) /\
    In (CliLog "1 reverted migrations") (trace s') /\
    connected s' = false.
Proof.
  intros Hn _ Hfile Hok.
  assert (Ht : truthy (Some n) = true).
  { simpl. apply negb_true_iff, String.eqb_neq. exact Hn. }
  rewrite (revert_by_name e times (Some n) s Ht). cbn [name_str].
  match goal with |- context [Umzug.down_migrations e ?ms ?s0] =>
    destruct (reverted_resolves e ms s0) as [s' Hrun]
  end.
  { intros f [<- | []]. split; assumption. }
  exists s'. split; [exact Hrun|].
  apply reverted_returned in Hrun as (Hd & Hl & Hin & Hc).
  cbn [ledger trace connected List.length] in *. repeat split; try assumption.
  - rewrite Hd, downs_of_app. simpl. now rewrite app_nil_r.
  - rewrite Hl. apply filter_ext. intros g. unfold includes. simpl.
    now rewrite orb_false_r.
Qed.

(** X8, at a concrete call. *)
Lemma X8_revert_by_name_exact_witness :
  exists s',
    revert (env_of abc [] []) 0 (Some "002_b") (fresh abc) = (Returned tt, s') /\
    downs_of (trace s') = (downs_of (trace (fresh abc)) ++ ["002_b"])%list /\
    ledger s' = filter (fun g => negb (g =? "002_b")) (ledger (fresh abc)) /\
    In (CliLog "1 reverted migrations") (trace s') /\
    connected s' = false.
Proof.
  apply (X8_revert_by_name_exact (env_of abc [] []) 0 "002_b" (fresh abc)).
  - discriminate.
  - simpl. auto.
  - simpl. auto.
  - intros st. split; reflexivity.
Defined.

(** The ledger without its [n] most recent entries. *)
Lemma remove_most_recent (l : list string) (n : nat) :
  NoDup l ->
  filter (fun g => negb (includes g (firstn n (rev l)))) l
  = firstn (List.length l - n) l.
Proof.
  intros Hnd. rewrite firstn_rev.
  transitivity
    (filter (fun g => negb (includes g (rev (skipn (List.length l - n) l))))
       (firstn (List.length l - n) l ++ skipn (List.length l - n) l)).
  - now rewrite firstn_skipn.
  - apply filter_remove_suffix. now rewrite firstn_skipn.
Qed.

(** X9. revert with no name and N > 1, on a ledger without duplicates, when
    the N most recent entries (or all of them, if there are fewer) are unit
    files whose down() and ledger removal resolve: down() is run on exactly
    those entries, most recent first, and the ledger keeps its older entries,
    in order. *)
Theorem X9_revert_count_exact (e : Env) (times : Z) (name : option string) (s : State) :
  truthy name = false ->
  (1 < times)%Z ->
  NoDup (ledger s) ->
  (forall f, In f (firstn (Z.to_nat times) (rev (ledger s))) ->
             In f (files e) /\
             forall st, down_resolves e f st = true /\ unlogMigration_resolves e f st = true) ->
  exists s',
    revert e times name s = (Returned tt, s') /\
    downs_of (trace s')
    = (downs_of (trace s) ++ firstn (Z.to_nat times) (rev (ledger s)))%list /\
    ledger s' = firstn (List.length (ledger s) - Z.to_nat times) (ledger s) /\
    connected s' = false.
Proof.
  intros Hn Ht Hnd Hok.
  pose proof (revert_by_count e times name s Hn Ht) as E. cbv zeta in E.
  pose proof (remove_most_recent (ledger s) (Z.to_nat times) Hnd) as Hrem.
  destruct (firstn (Z.to_nat times) (rev (ledger s))) as [|r rs] eqn:Hroll.
  - rewrite E. eexists. split; [reflexivity|]. cbn [ledger trace connected].
    rewrite filter_remove_nil in Hrem. rewrite <- Hrem, !downs_of_app. simpl.
    rewrite !app_nil_r. repeat split.
  - rewrite E.
    match goal with |- context [Umzug.down_migrations e ?ms ?s0] =>
      destruct (reverted_resolves e ms s0 Hok) as [s' Hrun]
    end.
    exists s'. split; [exact Hrun|].
    apply reverted_returned in Hrun as (Hd & Hl & _ & Hc).
    cbn [ledger trace connected] in *. repeat split; try assumption.
    + rewrite Hd, downs_of_app. simpl. now rewrite app_nil_r.
    + now rewrite Hl, Hrem.
Qed.

(** X9, at a concrete call: three ledger entries, N = 2. *)
Lemma X9_revert_count_exact_witness :
  exists s',
    revert (env_of abc [] []) 2 None (fresh abc) = (Returned tt, s') /\
    downs_of (trace s')
    = (downs_of (trace (fresh abc)) ++ firstn (Z.to_nat 2) (rev (ledger (fresh abc))))%list /\
    ledger s' = firstn (List.length (ledger (fresh abc)) - Z.to_nat 2) (ledger (fresh abc)) /\
    connected s' = false.
Proof.
  apply (X9_revert_count_exact (env_of abc [] []) 2 None (fresh abc)).
  - reflexivity.
  - lia.
  - repeat constructor; simpl; intuition discriminate.
  - intros f Hf. split; [|intros st; split; reflexivity].
    simpl in Hf. simpl. intuition.
Defined.

(** X10. revert with no name and N = 1, on a non-empty ledger without
    duplicates whose most recent entry is a unit file whose down() and ledger
    removal resolve: down() is run on that entry only and the ledger keeps
    all the older entries. *)
Theorem X10_revert_last_exact (e : Env) (name : option string) (s : State)
        (older : list string) (last : string) :
  truthy name = false ->
  ledger s = (older ++ [last])%list ->
  NoDup (ledger s) ->
  In last (files e) ->
  (forall st, down_resolves e last st = true /\ unlogMigration_resolves e last st = true) ->
  exists s',
    revert e 1 name s = (Returned tt, s') /\
    downs_of (trace s') = (downs_of (trace s) ++ [last])%list /\
    ledger s' = older /\
    In (CliLog "1 reverted migrations") (trace s') /\
    connected s' = false.
Proof.
  intros Hn Hl Hnd Hfile Hok.
  rewrite revert_last, down_last_unfold by assumption. cbn [ledger].
  rewrite Hl, rev_app_distr. cbn [rev app].
  match goal with |- context [Umzug.down_migrations e ?ms ?s0] =>
    destruct (reverted_resolves e ms s0) as [s' Hrun]
  end.
  { intros f [<- | []]. split; assumption. }
  exists s'. split; [exact Hrun|].
  apply reverted_returned in Hrun as (Hd & Hl' & Hin & Hc).
  cbn [ledger trace connected List.length] in *. repeat split; try assumption.
  - rewrite Hd, downs_of_app. simpl. now rewrite app_nil_r.
  - rewrite Hl'. rewrite Hl in Hnd.
    exact (filter_remove_suffix older [last] Hnd).
Qed.

(** X10, at a concrete call. *)
Lemma X10_revert_last_exact_witness :
  exists s',
    revert (env_of abc [] []) 1 None (fresh abc) = (Returned tt, s') /\
    downs_of (trace s') = (downs_of (trace (fresh abc)) ++ ["003_c"])%list /\
    ledger s' = ["001_a"; "002_b"] /\
    In (CliLog "1 reverted migrations") (trace s') /\
    connected s' = false.
Proof.
  apply (X10_revert_last_exact (env_of abc [] []) None (fresh abc)
           ["001_a"; "002_b"] "003_c").
  - reflexivity.
  - reflexivity.
  - repeat constructor; simpl; intuition discriminate.
  - simpl. auto.
  - intros st. split; reflexivity.
Defined.

(** X11. reset, when every ledger entry is a unit file whose down() and
    ledger removal resolve: down() is run on every entry, most recent first,
    the ledger ends empty, so that every unit file is pending again, the
    count is printed and the connection is closed.  On an empty ledger this
    prints "0 reverted migrations" and runs nothing. *)
Theorem X11_reset_reverts_all (e : Env) (s : State) :
  (forall f, In f (ledger s) ->
             In f (files e) /\
             forall st, down_resolves e f st = true /\ unlogMigration_resolves e f st = true) ->
  exists s',
    reset e s = (Returned tt, s') /\
    downs_of (trace s') = (downs_of (trace s) ++ rev (ledger s))%list /\
    ledger s' = [] /\
    Umzug.pending_files e s' = files e /\
    In (CliLog (nat_str (List.length (ledger s)) ++ " reverted migrations")) (trace s') /\
    connected s' = false.
Proof.
  intros Hok. rewrite reset_unfold, down_to_0_unfold. cbn [ledger].
  match goal with |- context [Umzug.down_migrations e ?ms ?s0] =>
    destruct (reverted_resolves e ms s0) as [s' Hrun]
  end.
  { intros f Hf. apply Hok. now apply in_rev. }
  exists s'. split; [exact Hrun|].
  apply reverted_returned in Hrun as (Hd & Hl & Hin & Hc).
  cbn [ledger trace connected] in *.
  assert (Hempty : ledger s' = []).
  { rewrite Hl. apply filter_none. intros x Hx.
    apply negb_false_iff, includes_In. now apply in_rev in Hx. }
  repeat split; try assumption.
  - rewrite Hd, downs_of_app. simpl. now rewrite app_nil_r.
  - unfold Umzug.pending_files. rewrite Hempty. apply filter_remove_nil.
  - now rewrite length_rev in Hin.
Qed.

(** X11, at a concrete call. *)
Lemma X11_reset_reverts_all_witness :
  exists s',
    reset (env_of abc [] []) (fresh abc) = (Returned tt, s') /\
    downs_of (trace s') = (downs_of (trace (fresh abc)) ++ rev (ledger (fresh abc)))%list /\
    ledger s' = [] /\
    Umzug.pending_files (env_of abc [] []) s' = files (env_of abc [] []) /\
    In (CliLog (nat_str (List.length (ledger (fresh abc))) ++ " reverted migrations"))
       (trace s') /\
    connected s' = false.
Proof.
  apply (X11_reset_reverts_all (env_of abc [] []) (fresh abc)).
  intros f Hf. split; [exact Hf | intros st; split; reflexivity].
Defined.

(** What a throwing [reset] leaves behind. *)
Lemma reset_failure_shape (e : Env) (s s' : State) (err : Error) :
  NoDup (ledger s) ->
  (forall f, In f (ledger s) -> In f (files e)) ->
  reset e s = (Threw err, s') ->
  exists reverted f older,
    rev (ledger s) = (reverted ++ f :: older)%list /\
    (err = DownRejected f \/ err = UnlogRejected f) /\
    downs_of (trace s') = (downs_of (trace s) ++ reverted ++ [f])%list /\
    ledger s' = rev (f :: older) /\
    connected s' = connected s.
Proof.
  intros Hnd Hfiles Hrun.
  rewrite reset_unfold, down_to_0_unfold in Hrun. cbn [ledger] in Hrun.
  rewrite down_migrations_found in Hrun by (intros f Hf; apply Hfiles; now apply in_rev).
  match type of Hrun with context [Umzug.execute_down e ?ms ?s0] =>
    destruct (execute_down_spec e ms s0) as (done & rest & Hms & Hl & Hc & Hr);
    destruct (Umzug.execute_down e ms s0) as [[l|err'] s1]
  end; cbn [fst snd reverted_then_closed ledger trace connected] in *; [discriminate|].
  injection Hrun as -> ->.
  destruct Hr as (f & older & -> & Herr & Ht).
  exists done, f, older. repeat split; try assumption.
  - rewrite Ht, downs_of_app, downs_of_app, downs_of_RunDown. simpl.
    now rewrite app_nil_r.
  - rewrite Hl.
    assert (Hled : ledger s = (rev (f :: older) ++ rev done)%list).
    { rewrite <- rev_app_distr, <- Hms. symmetry. apply rev_involutive. }
    rewrite Hled in Hnd. rewrite Hled.
    pose proof (filter_remove_suffix (rev (f :: older)) (rev done) Hnd) as H.
    now rewrite rev_involutive in H.
Qed.

(** X12. When reset throws the rejection of the down() or of the ledger
    removal of a unit, on a ledger without duplicates whose entries are all
    unit files: the entries listed after that unit have been reverted, most
    recent first, and have left the ledger, down() has been run on that unit
    last, it and all the entries listed before it are still in the ledger, in
    order, and the connection has not been closed. *)
Theorem X12_reset_failure_keeps_older (e : Env) (s s' : State) (f : string) :
  NoDup (ledger s) ->
  (forall g, In g (ledger s) -> In g (files e)) ->
  reset e s = (Threw (DownRejected f), s') \/
  reset e s = (Threw (UnlogRejected f), s') ->
  exists reverted older,
    rev (ledger s) = (reverted ++ f :: older)%list /\
    downs_of (trace s') = (downs_of (trace s) ++ reverted ++ [f])%list /\
    ledger s' = rev (f :: older) /\
    connected s' = connected s.
Proof.
  intros Hnd Hfiles Hrun.
  assert (Hshape : exists err,
    reset e s = (Threw err, s') /\ (err = DownRejected f \/ err = UnlogRejected f)).
  { destruct Hrun as [Hrun | Hrun]; eexists; split; try exact Hrun; auto. }
  destruct Hshape as (err & Hthrow & Herr).
  destruct (reset_failure_shape e s s' err Hnd Hfiles Hthrow)
    as (reverted & f' & older & Hrev & Herr' & Hd & Hl & Hc).
  assert (Hf : f' = f).
  { destruct Herr as [-> | ->]; destruct Herr' as [E | E]; congruence. }
  subst f'. exists reverted, older. auto.
Qed.

(** X12, at a concrete call: of three ledger entries the down() of the
    second rejects. *)
Lemma X12_reset_failure_keeps_older_witness :
  exists reverted older,
    rev (ledger (fresh abc)) = (reverted ++ "002_b" :: older)%list /\
    downs_of (trace (snd (reset (env_of abc [] ["002_b"]) (fresh abc))))
    = (downs_of (trace (fresh abc)) ++ reverted ++ ["002_b"])%list /\
    ledger (snd (reset (env_of abc [] ["002_b"]) (fresh abc))) = rev ("002_b" :: older) /\
    connected (snd (reset (env_of abc [] ["002_b"]) (fresh abc))) = connected (fresh abc).
Proof.
  apply (X12_reset_failure_keeps_older (env_of abc [] ["002_b"]) (fresh abc)).
  - repeat constructor; simpl; intuition discriminate.
  - intros g Hg. exact Hg.
  - left. vm_compute. reflexivity.
Defined.
